(** * Ubuntu Image Fetcher: a shallow embedding of [Fetched_Images.py]

    The development follows the source file top to bottom: Python's string
    primitives, the pieces of the standard library the program calls
    ([os.path], [hashlib.md5], [int]), the HTTP response as [requests]
    exposes it, the world the program acts on (a flat file system and an
    ordered trace of its effects), and then the functions of the program,
    each under its own name.

    Conventions.
    - A Python [str] is a [string]; each [ascii] is one code point in the
      range U+0000..U+00FF.  That is exactly what [http.client] produces
      for header values (it decodes them as Latin-1); for typed URLs it
      restricts the input alphabet to Latin-1.
    - A [bytes] object is a [list byte].
    - Exceptions are grouped by the first [except] clause of
      [download_image] that matches them.  Only subclasses of [Exception]
      are modelled: an asynchronous [KeyboardInterrupt] is outside the model.
    - The program is modelled twice.  The first model has a console that
      accepts every line, so [print] always returns; module [Console]
      repeats the program over a console that may refuse a line, where
      [print] raises what the console says (an ASCII-only terminal raises
      [UnicodeEncodeError] on the status symbols).
    - The disk is a flat POSIX file system without permissions, quotas or
      symbolic links; file names are encoded in UTF-8 and hold at most 255
      bytes. *)

From Stdlib Require Import ZArith NArith List String Ascii Bool Lia.
From Stdlib Require Import DecimalString.
From stdpp Require Import base option list gmap strings.

Local Open Scope Z_scope.

(** ** Python string primitives *)

Module PyStr.

Definition code (c : ascii) : N := N_of_ascii c.

(** [c.isspace()] on U+0000..U+00FF: TAB..CR, the four information
    separators FS..US, SPACE, NEL and NO-BREAK SPACE. *)
Definition isspace (c : ascii) : bool :=
  let n := code c in
  ((9 <=? n) && (n <=? 13) || (28 <=? n) && (n <=? 32)
   || (n =? 133) || (n =? 160))%N.

(** [bool(s)]: a string is truthy when it is not empty. *)
Definition truthy (s : string) : bool :=
  match s with "" => false | String _ _ => true end.

(** [s.lstrip()] *)
Fixpoint lstrip (s : string) : string :=
  match s with
  | "" => ""
  | String c s' => if isspace c then lstrip s' else s
  end.

(** [s.rstrip()] *)
Fixpoint rstrip (s : string) : string :=
  match s with
  | "" => ""
  | String c s' =>
      match rstrip s' with
      | "" => if isspace c then "" else String c ""
      | r => String c r
      end
  end.

(** [s.strip()] *)
Definition strip (s : string) : string := rstrip (lstrip s).

(** [s.split(sep)] for a one-character separator: never the empty list,
    and adjacent separators give empty pieces. *)
Fixpoint split (sep : ascii) (s : string) : list string :=
  match s with
  | "" => [""]
  | String c s' =>
      if Ascii.eqb c sep then "" :: split sep s'
      else match split sep s' with
           | p :: ps => String c p :: ps
           | [] => [String c ""]
           end
  end.

(** [sep.join(pieces)] *)
Fixpoint join (sep : ascii) (pieces : list string) : string :=
  match pieces with
  | [] => ""
  | [p] => p
  | p :: ps => p +:+ String sep (join sep ps)
  end.

(** [c in s] *)
Fixpoint contains (c : ascii) (s : string) : bool :=
  match s with
  | "" => false
  | String d s' => Ascii.eqb d c || contains c s'
  end.

Definition all_space (s : string) : Prop :=
  ∀ c, contains c s = true → isspace c = true.

(** [all(p(c) for c in s)] *)
Fixpoint all (p : ascii → bool) (s : string) : bool :=
  match s with
  | "" => true
  | String c s' => p c && all p s'
  end.

(** First and last character, when there is one. *)
Definition head (s : string) : option ascii :=
  match s with "" => None | String c _ => Some c end.

Fixpoint last (s : string) : option ascii :=
  match s with
  | "" => None
  | String c "" => Some c
  | String _ s' => last s'
  end.

(** [c.lower()] on U+0000..U+00FF: A..Z and the accented capitals
    U+00C0..U+00DE (the multiplication sign U+00D7 apart) move up by 32. *)
Definition lower_char (c : ascii) : ascii :=
  let n := code c in
  if ((65 <=? n) && (n <=? 90)
      || (192 <=? n) && (n <=? 222) && negb (n =? 215))%N
  then ascii_of_N (n + 32) else c.

(** [s.lower()] *)
Fixpoint lower (s : string) : string :=
  match s with
  | "" => ""
  | String c s' => String (lower_char c) (lower s')
  end.

(** [s.startswith(p)] *)
Definition startswith (s p : string) : bool := String.prefix p s.

(** [s.rfind(c) + 1]: the index just after the last [c], 0 without one. *)
Fixpoint after_last (c : ascii) (s : string) : nat :=
  match s with
  | "" => 0%nat
  | String d s' =>
      match after_last c s' with
      | O => if Ascii.eqb d c then 1%nat else 0%nat
      | S k => S (S k)
      end
  end.

(** [s.endswith(suffix)] *)
Definition endswith (s suffix : string) : bool :=
  (String.length suffix <=? String.length s)%nat
  && String.eqb (substring (String.length s - String.length suffix)
                           (String.length suffix) s) suffix.

(** [s[i:]] and [s[:i]] *)
Fixpoint drop (i : nat) (s : string) : string :=
  match i, s with
  | O, _ => s
  | S _, "" => ""
  | S k, String _ s' => drop k s'
  end.

Fixpoint take (i : nat) (s : string) : string :=
  match i, s with
  | O, _ => ""
  | S _, "" => ""
  | S k, String c s' => String c (take k s')
  end.

(** The string of the given code points, and [c * n]. *)
Definition of_codes (codes : list N) : string :=
  string_of_list_ascii (List.map ascii_of_N codes).

Fixpoint times (n : nat) (c : ascii) : string :=
  match n with
  | O => ""
  | S k => String c (times k c)
  end.

(** [c.isprintable()] on U+0000..U+00FF: neither a control character, nor
    NO-BREAK SPACE, nor SOFT HYPHEN. *)
Definition isprintable (c : ascii) : bool :=
  let n := code c in
  ((32 <=? n) && (n <=? 126) || (161 <=? n) && (n <=? 172)
   || (174 <=? n) && (n <=? 255))%N.

Definition apostrophe : ascii := "039"%char.
Definition quotation_mark : ascii := "034"%char.
Definition backslash : ascii := "092"%char.

Definition hex_nibble (n : N) : ascii :=
  ascii_of_N (if (n <? 10)%N then 48 + n else 87 + n).

(** [repr(s)]: the string between apostrophes, or between quotation marks
    when it holds an apostrophe and no quotation mark; the delimiter and
    the backslash are escaped with a backslash, TAB, LF and CR are written
    [\t], [\n] and [\r], and any other character that is not printable
    is written [\xhh]. *)
Definition repr_char (quote c : ascii) : string :=
  if Ascii.eqb c quote || Ascii.eqb c backslash then String backslash (String c "")
  else if Ascii.eqb c "009" then String backslash "t"
  else if Ascii.eqb c "010" then String backslash "n"
  else if Ascii.eqb c "013" then String backslash "r"
  else if isprintable c then String c ""
  else String backslash
         (String "x" (String (hex_nibble (code c / 16))
                        (String (hex_nibble (code c mod 16)) ""))).

Fixpoint repr_body (quote : ascii) (s : string) : string :=
  match s with
  | "" => String quote ""
  | String c s' => repr_char quote c +:+ repr_body quote s'
  end.

Definition repr (s : string) : string :=
  let quote :=
    if contains apostrophe s && negb (contains quotation_mark s)
    then quotation_mark else apostrophe in
  String quote (repr_body quote s).

End PyStr.

(** ** Input Collector (main, line 83) *)

(** [[url.strip() for url in urls_input.split(",") if url.strip()]] *)
Definition collect_urls (urls_input : string) : list string :=
  List.map PyStr.strip
    (List.filter (λ url, PyStr.truthy (PyStr.strip url))
       (PyStr.split "," urls_input)).

(** The contract in the words of the specification: split on comma, trim
    each piece, discard the empty ones. *)
Definition input_collector_spec (raw : string) : list string :=
  List.filter PyStr.truthy (List.map PyStr.strip (PyStr.split "," raw)).

(** ** Exceptions and results *)

(** The three [except] clauses of [download_image], in the order they are
    tried.  [RequestException] stands for [requests.exceptions.RequestException]
    and its subclasses (also those that inherit from [ValueError] as well: the
    first clause wins), [ValueError] for [ValueError] and its subclasses that
    are not request exceptions, [OtherException] for every other subclass of
    [Exception] ([OSError] and the like).  The string is [str(e)]. *)
Inductive exn : Type :=
| RequestException (msg : string)
| ValueError (msg : string)
| OtherException (msg : string).

Inductive result (A : Type) : Type :=
| Ok (a : A)
| Raise (e : exn).

Arguments Ok {A} a.
Arguments Raise {A} e.

Definition bytes : Type := list Byte.byte.

(** [bool(chunk)]: a [bytes] object is truthy when it is not empty. *)
Definition bytes_truthy (chunk : bytes) : bool :=
  match chunk with
  | [] => false
  | _ :: _ => true
  end.

(** ** [os.path] (POSIX flavour) *)

Module OsPath.

Definition sep : ascii := "/"%char.

(** [os.path.basename(p)]: [i = p.rfind('/') + 1; return p[i:]] *)
Definition basename (p : string) : string :=
  PyStr.drop (PyStr.after_last sep p) p.

Fixpoint rstrip_sep (s : string) : string :=
  match s with
  | "" => ""
  | String c s' =>
      match rstrip_sep s' with
      | "" => if Ascii.eqb c sep then "" else String c ""
      | r => String c r
      end
  end.

(** [os.path.dirname(p)]: the head up to the last slash, without its
    trailing slashes unless it consists of slashes only. *)
Definition dirname (p : string) : string :=
  let head := PyStr.take (PyStr.after_last sep p) p in
  match rstrip_sep head with
  | "" => head
  | h => h
  end.

(** [os.path.join(a, b)] *)
Definition join (a b : string) : string :=
  if PyStr.startswith b "/" then b
  else if negb (PyStr.truthy a) then b
  else match PyStr.last a with
       | Some c => if Ascii.eqb c sep then a +:+ b else a +:+ "/" +:+ b
       | None => b
       end.

End OsPath.

(** ** [int(s)] for a [str] argument, base 10 *)

Module PyInt.

(** What [int] drops at both ends: TAB..CR, SPACE, NEL and NO-BREAK SPACE.
    Unlike [str.strip], it keeps the information separators
    U+001C..U+001F. *)
Definition isspace (c : ascii) : bool :=
  let n := PyStr.code c in
  ((9 <=? n) && (n <=? 13) || (n =? 32) || (n =? 133) || (n =? 160))%N.

Fixpoint lstrip (s : string) : string :=
  match s with
  | "" => ""
  | String c s' => if isspace c then lstrip s' else s
  end.

Fixpoint rstrip (s : string) : string :=
  match s with
  | "" => ""
  | String c s' =>
      match rstrip s' with
      | "" => if isspace c then "" else String c ""
      | r => String c r
      end
  end.

Definition strip (s : string) : string := rstrip (lstrip s).

Definition digit (c : ascii) : option Z :=
  let n := PyStr.code c in
  if ((48 <=? n) && (n <=? 57))%N then Some (Z.of_N n - 48) else None.

(** What the scanner read last. *)
Inductive seen : Type := Nothing | Digit | Underscore.

(** The longest prefix of digits and underscores, where an underscore
    must follow a digit and a digit must end the prefix: the value, the
    number of digits (underscores apart, leading zeros included) and what
    is left of the string. *)
Fixpoint scan (acc : Z) (count : nat) (prev : seen) (s : string)
  : option (Z * nat * string) :=
  let stop :=
    match prev with
    | Digit => Some (acc, count, s)
    | _ => None
    end in
  match s with
  | "" => stop
  | String c s' =>
      match digit c with
      | Some d => scan (10 * acc + d) (S count) Digit s'
      | None =>
          if Ascii.eqb c "_"
          then match prev with
               | Digit => scan acc count Underscore s'
               | _ => None
               end
          else stop
      end
  end.

(** [sys.get_int_max_str_digits()], at its default. *)
Definition max_str_digits : nat := 4300.

Definition decimal (n : nat) : string :=
  NilZero.string_of_uint (Nat.to_uint n).

(** The message shows at most 200 characters of [repr(s)]. *)
Definition invalid_literal (s : string) : exn :=
  ValueError ("invalid literal for int() with base 10: "
              +:+ PyStr.take 200 (PyStr.repr s)).

Definition exceeds_limit (count : nat) : exn :=
  ValueError ("Exceeds the limit (4300 digits) for integer string conversion: value has "
              +:+ decimal count
              +:+ " digits; use sys.set_int_max_str_digits() to increase the limit").

(** Surrounding whitespace is dropped and one sign is allowed.  The number
    of digits is checked as soon as the digits are read, before what
    follows them is looked at. *)
Definition int (s : string) : result Z :=
  let t := strip s in
  let '(sign, body) :=
    match t with
    | String "+" r => (1, r)
    | String "-" r => (-1, r)
    | _ => (1, t)
    end in
  match scan 0 0 Nothing body with
  | None => Raise (invalid_literal s)
  | Some (n, count, rest) =>
      if (max_str_digits <? count)%nat then Raise (exceeds_limit count)
      else match rest with
           | "" => Ok (sign * n)
           | _ => Raise (invalid_literal s)
           end
  end.

End PyInt.

(** ** [str.encode()] and [hashlib.md5] *)

Module Hashlib.

(** [s.encode()]: UTF-8 of code points below U+0100, one byte up to
    U+007F and two bytes from U+0080 on. *)
Definition encode_char (c : ascii) : list Z :=
  let n := Z.of_N (PyStr.code c) in
  if n <? 128 then [n]
  else [Z.lor 192 (Z.shiftr n 6); Z.lor 128 (Z.land n 63)].

Fixpoint encode (s : string) : list Z :=
  match s with
  | "" => []
  | String c s' => encode_char c ++ encode s'
  end.

Definition mask32 : Z := 0xffffffff.
Definition add32 (x y : Z) : Z := Z.land (x + y) mask32.
Definition not32 (x : Z) : Z := Z.lxor x mask32.
Definition rotl32 (x c : Z) : Z :=
  Z.land (Z.lor (Z.shiftl x c) (Z.shiftr x (32 - c))) mask32.

(** Per-round shift amounts and the sine table of RFC 1321. *)
Definition shift_amounts : list Z :=
  [7; 12; 17; 22; 7; 12; 17; 22; 7; 12; 17; 22; 7; 12; 17; 22;
   5; 9; 14; 20; 5; 9; 14; 20; 5; 9; 14; 20; 5; 9; 14; 20;
   4; 11; 16; 23; 4; 11; 16; 23; 4; 11; 16; 23; 4; 11; 16; 23;
   6; 10; 15; 21; 6; 10; 15; 21; 6; 10; 15; 21; 6; 10; 15; 21].

Definition sine_table : list Z :=
  [ 0xd76aa478; 0xe8c7b756; 0x242070db; 0xc1bdceee;
    0xf57c0faf; 0x4787c62a; 0xa8304613; 0xfd469501;
    0x698098d8; 0x8b44f7af; 0xffff5bb1; 0x895cd7be;
    0x6b901122; 0xfd987193; 0xa679438e; 0x49b40821;
    0xf61e2562; 0xc040b340; 0x265e5a51; 0xe9b6c7aa;
    0xd62f105d; 0x02441453; 0xd8a1e681; 0xe7d3fbc8;
    0x21e1cde6; 0xc33707d6; 0xf4d50d87; 0x455a14ed;
    0xa9e3e905; 0xfcefa3f8; 0x676f02d9; 0x8d2a4c8a;
    0xfffa3942; 0x8771f681; 0x6d9d6122; 0xfde5380c;
    0xa4beea44; 0x4bdecfa9; 0xf6bb4b60; 0xbebfbc70;
    0x289b7ec6; 0xeaa127fa; 0xd4ef3085; 0x04881d05;
    0xd9d4d039; 0xe6db99e5; 0x1fa27cf8; 0xc4ac5665;
    0xf4292244; 0x432aff97; 0xab9423a7; 0xfc93a039;
    0x655b59c3; 0x8f0ccc92; 0xffeff47d; 0x85845dd1;
    0x6fa87e4f; 0xfe2ce6e0; 0xa3014314; 0x4e0811a1;
    0xf7537e82; 0xbd3af235; 0x2ad7d2bb; 0xeb86d391 ].

Record state : Type := State { sa : Z; sb : Z; sc : Z; sd : Z }.

Definition initial : state :=
  State 0x67452301 0xefcdab89 0x98badcfe 0x10325476.

(** One of the 64 operations on the working registers; [m] holds the
    sixteen little-endian words of the block. *)
Definition operation (m : list Z) (st : state) (i : nat) : state :=
  let '(State a b c d) := st in
  let iz := Z.of_nat i in
  let '(f, g) :=
    if iz <? 16 then (Z.lor (Z.land b c) (Z.land (not32 b) d), iz)
    else if iz <? 32 then
      (Z.lor (Z.land d b) (Z.land (not32 d) c), (5 * iz + 1) mod 16)
    else if iz <? 48 then (Z.lxor b (Z.lxor c d), (3 * iz + 5) mod 16)
    else (Z.lxor c (Z.lor b (not32 d)), (7 * iz) mod 16) in
  let f' := add32 (add32 (add32 f a) (nth i sine_table 0))
                  (nth (Z.to_nat g) m 0) in
  State d (add32 b (rotl32 f' (nth i shift_amounts 0))) b c.

Fixpoint words_le (n : nat) (block : list Z) : list Z :=
  match n, block with
  | S k, b0 :: b1 :: b2 :: b3 :: rest =>
      (b0 + Z.shiftl b1 8 + Z.shiftl b2 16 + Z.shiftl b3 24)
        :: words_le k rest
  | _, _ => []
  end.

Definition compress (st : state) (block : list Z) : state :=
  let m := words_le 16 block in
  let '(State a b c d) := fold_left (operation m) (seq 0 64) st in
  State (add32 (sa st) a) (add32 (sb st) b)
        (add32 (sc st) c) (add32 (sd st) d).

Definition bytes_le (n : nat) (x : Z) : list Z :=
  List.map (λ k, Z.land (Z.shiftr x (8 * Z.of_nat k)) 255) (seq 0 n).

(** The message, a single 1 bit, zeros up to 56 modulo 64, and the bit
    length on eight bytes. *)
Definition pad (msg : list Z) : list Z :=
  let len := Z.of_nat (length msg) in
  msg ++ [128] ++ repeat 0 (Z.to_nat ((55 - len) mod 64))
      ++ bytes_le 8 (8 * len).

Fixpoint absorb (blocks : nat) (st : state) (data : list Z) : state :=
  match blocks with
  | O => st
  | S k => absorb k (compress st (firstn 64 data)) (skipn 64 data)
  end.

Definition md5 (msg : list Z) : state :=
  let padded := pad msg in
  absorb (length padded / 64) initial padded.

Definition digest (st : state) : list Z :=
  bytes_le 4 (sa st) ++ bytes_le 4 (sb st)
  ++ bytes_le 4 (sc st) ++ bytes_le 4 (sd st).

Definition hex_digit (n : Z) : ascii :=
  nth (Z.to_nat (Z.land n 15))
      (list_ascii_of_string "0123456789abcdef") "0"%char.

Fixpoint hex (l : list Z) : string :=
  match l with
  | [] => ""
  | b :: l' => String (hex_digit (Z.shiftr b 4)) (String (hex_digit b) (hex l'))
  end.

(** [hashlib.md5(data).hexdigest()] *)
Definition md5_hexdigest (data : list Z) : string := hex (digest (md5 data)).

End Hashlib.

(** ** The result monad *)

Global Instance result_ret : MRet result := λ _ a, Ok a.
Global Instance result_bind : MBind result := λ _ _ f r,
  match r with
  | Ok a => f a
  | Raise e => Raise e
  end.
Global Instance result_fmap : FMap result := λ _ _ f r,
  match r with
  | Ok a => Ok (f a)
  | Raise e => Raise e
  end.
Global Instance result_throw : MThrow exn result := λ _ e, Raise e.

(** ** What [requests] hands to the program *)

(** [headers] is the [CaseInsensitiveDict] of the response: like the
    library's own store it is keyed by the lower-cased header name.
    [content] lists the chunks [iter_content] yields, and [content_error]
    is what it raises after them when the stream breaks.  [http_error] is
    the text of the [HTTPError] that [raise_for_status] builds. *)
Record Response : Type := {
  status_code : Z;
  http_error : string;
  headers : gmap string string;
  content : list bytes;
  content_error : option exn
}.

(** [response.headers.get(name)] *)
Definition headers_get (r : Response) (name : string) : option string :=
  headers r !! PyStr.lower name.

(** [response.raise_for_status()]: an [HTTPError], which is a
    [RequestException], for a status from 400 to 599. *)
Definition raise_for_status (r : Response) : result unit :=
  if (400 <=? status_code r) && (status_code r <? 600)
  then Raise (RequestException (http_error r))
  else Ok tt.

(** What one call of [requests.get] does. *)
Inductive get_outcome : Type :=
| Responded (r : Response)
| Failed (e : exn).

(** [urllib.parse.ParseResult] *)
Record ParseResult : Type := {
  scheme : string;
  netloc : string;
  path : string;
  params : string;
  query : string;
  fragment : string
}.

(** ** Safety Validator (lines 27-40) *)

Definition invalid_file_type : exn :=
  ValueError "Invalid file type. Only image files are allowed.".

Definition file_too_large : exn :=
  ValueError "File is too large (limit is 10MB).".

Definition size_limit : Z := 10 * 1024 * 1024.

(** [response.headers.get('Content-Type', '').lower()] *)
Definition declared_content_type (r : Response) : string :=
  PyStr.lower (default "" (headers_get r "Content-Type")).

(** [content_length and int(content_length) > 10 * 1024 * 1024]: [int] is
    reached only for a header that is present and not empty, and its
    [ValueError] is not caught here. *)
Definition exceeds_limit (content_length : option string) : result bool :=
  match content_length with
  | None => Ok false
  | Some v =>
      if PyStr.truthy v then n ← PyInt.int v; Ok (size_limit <? n)
      else Ok false
  end.

Definition validate_response_headers (response : Response) : result unit :=
  let content_type := declared_content_type response in
  if negb (PyStr.startswith content_type "image/") then Raise invalid_file_type
  else
    let content_length := headers_get response "Content-Length" in
    too_large ← exceeds_limit content_length;
    if (too_large : bool) then Raise file_too_large else Ok tt.

(** ** The world: a flat file system and the trace of effects *)

Record FS : Type := {
  dirs : gset string;
  files : gmap string bytes
}.

(** A path names a directory when it is one, or when its last component is
    [.] or [..] below an existing directory. *)
Definition is_dir (f : FS) (p : string) : bool :=
  bool_decide (p ∈ dirs f)
  || (bool_decide (OsPath.basename p = "." ∨ OsPath.basename p = "..")
      && bool_decide (OsPath.dirname p ∈ dirs f)).

(** [os.path.exists(p)] *)
Definition path_exists (f : FS) (p : string) : bool :=
  is_dir f p || bool_decide (is_Some (files f !! p)).

(** Console lines, one constructor per [print] call of the source. *)
Inductive line : Type :=
| Welcome
| Tagline
| NoValidUrls
| FetchingImages
| Closing
| SkippingDuplicate (filename : string)
| SuccessfullyFetched (filename : string)
| ImageSavedTo (filepath : string)
| ConnectionErrorFor (url msg : string)
| SkippingUrl (url msg : string)
| UnexpectedErrorFor (url msg : string).

Inductive event : Type :=
| EvPrint (l : line)
| EvInput
| EvGet (url : string)
| EvMakedirs (p : string)
| EvOpen (p : string)
| EvWrite (p : string) (chunk : bytes)
| EvClose (p : string).

Record World : Type := {
  fs : FS;
  trace : list event
}.

(** ** State and exceptions *)

Definition IO (A : Type) : Type := World → World * result A.

Global Instance IO_ret : MRet IO := λ _ a w, (w, Ok a).
Global Instance IO_bind : MBind IO := λ _ _ f m w,
  match m w with
  | (w', Ok a) => f a w'
  | (w', Raise e) => (w', Raise e)
  end.
Global Instance IO_throw : MThrow exn IO := λ _ e w, (w, Raise e).

(** A pure computation that may raise, run inside [IO]. *)
Definition lift {A} (r : result A) : IO A := λ w, (w, r).

(** [try: body / except Exception as e: handler(e)] *)
Definition try_except {A} (body : IO A) (handler : exn → IO A) : IO A :=
  λ w, match body w with
       | (w', Raise e) => handler e w'
       | done => done
       end.

(** [with ... :] runs [cleanup] however [body] ends, then passes the
    outcome of [body] on. *)
Definition finally {A} (body : IO A) (cleanup : IO unit) : IO A :=
  λ w, let '(w', r) := body w in (fst (cleanup w'), r).

(** [for x in l: body(x)] *)
Fixpoint for_each {A} (l : list A) (body : A → IO unit) : IO unit :=
  match l with
  | [] => mret tt
  | x :: l' => body x;; for_each l' body
  end.

Definition emit (e : event) : IO unit :=
  λ w, ({| fs := fs w; trace := trace w ++ [e] |}, Ok tt).

Definition print (l : line) : IO unit := emit (EvPrint l).

Definition update_fs (f : FS → FS) : IO unit :=
  λ w, ({| fs := f (fs w); trace := trace w |}, Ok tt).

Definition get_fs : IO FS := λ w, (w, Ok (fs w)).

Definition get_trace : IO (list event) := λ w, (w, Ok (trace w)).

(** The number of [requests.get] calls made so far. *)
Definition requests_made (t : list event) : nat :=
  length (List.filter (λ e, match e with EvGet _ => true | _ => false end) t).

(** [str(e)] of an [OSError] raised for a path. *)
Definition os_error (errno text path : string) : exn :=
  OtherException ("[Errno " +:+ errno +:+ "] " +:+ text +:+ ": "
                  +:+ PyStr.repr path).

(** [os.makedirs(p, exist_ok=True)] for a one-component path: nothing to do
    for an existing directory, [FileExistsError] when a file has the name. *)
Definition makedirs_exist_ok (p : string) : IO unit :=
  emit (EvMakedirs p);;
  f ← get_fs;
  if is_dir f p then mret tt
  else if path_exists f p then mthrow (os_error "17" "File exists" p)
  else update_fs (λ f, {| dirs := {[p]} ∪ dirs f; files := files f |}).

(** The length of the last component of [p] on disk, in bytes. *)
Definition name_bytes (p : string) : nat :=
  length (Hashlib.encode (OsPath.basename p)).

Definition NAME_MAX : nat := 255.

(** What [open(p, 'wb')] raises, if anything.  A NUL in the path is refused
    before the system is asked ([ValueError]); then the system refuses a
    directory ([IsADirectoryError]), a path whose directory is a regular
    file ([NotADirectoryError]) or does not exist ([FileNotFoundError]),
    and a name of more than [NAME_MAX] bytes ([OSError]). *)
Definition open_error (f : FS) (p : string) : option exn :=
  if PyStr.contains "000" p then Some (ValueError "embedded null byte")
  else if is_dir f p then Some (os_error "21" "Is a directory" p)
  else if negb (bool_decide (OsPath.dirname p = "")
                || is_dir f (OsPath.dirname p))
  then Some (if bool_decide (is_Some (files f !! OsPath.dirname p))
             then os_error "20" "Not a directory" p
             else os_error "2" "No such file or directory" p)
  else if (NAME_MAX <? name_bytes p)%nat
  then Some (os_error "36" "File name too long" p)
  else None.

(** [open(p, 'wb')]: creates the file or truncates it. *)
Definition open_wb (p : string) : IO unit :=
  emit (EvOpen p);;
  f ← get_fs;
  match open_error f p with
  | Some e => mthrow e
  | None =>
      update_fs (λ f, {| dirs := dirs f; files := <[p := []]> (files f) |})
  end.

(** [f.write(chunk)] on the file opened at [p] *)
Definition f_write (p : string) (chunk : bytes) : IO unit :=
  emit (EvWrite p chunk);;
  update_fs (λ f, {| dirs := dirs f;
                     files := <[p := default [] (files f !! p) ++ chunk]> (files f) |}).

Definition f_close (p : string) : IO unit := emit (EvClose p).

(** [for chunk in response.iter_content(chunk_size=8192):
       if chunk: f.write(chunk)] *)
Fixpoint write_chunks (p : string) (chunks : list bytes) : IO unit :=
  match chunks with
  | [] => mret tt
  | chunk :: rest =>
      (if bytes_truthy chunk then f_write p chunk else mret tt);;
      write_chunks p rest
  end.

Definition stream_to (p : string) (response : Response) : IO unit :=
  write_chunks p (content response);;
  match content_error response with
  | Some e => mthrow e
  | None => mret tt
  end.

(** ** The program *)

Definition SAVE_DIR : string := "Fetched_Images".

Definition create_save_directory : IO unit := makedirs_exist_ok SAVE_DIR.

Definition file_already_exists (filepath : string) : IO bool :=
  f ← get_fs; mret (path_exists f filepath).

Section Program.

(** The two parts of the environment the program calls into:
    [urllib.parse.urlparse], which returns a [ParseResult] or raises a
    [ValueError], and the network behind [requests.get], which answers
    the [n]-th request of the run for a given URL. *)
Variable urlparse : string → result ParseResult.
Variable http : nat → string → get_outcome.

(** Destination Resolver (lines 13-21) *)
Definition get_filename_from_url (url : string) : result string :=
  parsed_url ← urlparse url;
  let filename := OsPath.basename (path parsed_url) in
  if negb (PyStr.truthy filename)
  then Ok (Hashlib.md5_hexdigest (Hashlib.encode url) +:+ ".jpg")
  else Ok filename.

(** [requests.get(url, timeout=10, stream=True)] *)
Definition requests_get (url : string) : IO Response :=
  t ← get_trace;
  emit (EvGet url);;
  match http (requests_made t) url with
  | Responded r => mret r
  | Failed e => mthrow e
  end.

(** Persister (lines 56-68): the duplicate check, the chunked write and
    the two success lines. *)
Definition persist (response : Response) (filename filepath : string)
  : IO unit :=
  duplicate ← file_already_exists filepath;
  if (duplicate : bool) then print (SkippingDuplicate filename)
  else
    open_wb filepath;;
    finally (stream_to filepath response) (f_close filepath);;
    print (SuccessfullyFetched filename);;
    print (ImageSavedTo filepath).

(** The body of the [try] (lines 45-68) *)
Definition download_image_try (url : string) : IO unit :=
  response ← requests_get url;
  lift (raise_for_status response);;
  lift (validate_response_headers response);;
  filename ← lift (get_filename_from_url url);
  let filepath := OsPath.join SAVE_DIR filename in
  persist response filename filepath.

(** The three [except] clauses (lines 70-75) *)
Definition report (url : string) (e : exn) : IO unit :=
  match e with
  | RequestException msg => print (ConnectionErrorFor url msg)
  | ValueError msg => print (SkippingUrl url msg)
  | OtherException msg => print (UnexpectedErrorFor url msg)
  end.

Definition download_image (url : string) : IO unit :=
  try_except (download_image_try url) (report url).

(** [main], with the line typed at the prompt as its argument *)
Definition main (urls_input : string) : IO unit :=
  print Welcome;;
  print Tagline;;
  emit EvInput;;
  let urls := collect_urls urls_input in
  if negb (bool_decide (urls ≠ [])) then print NoValidUrls
  else
    create_save_directory;;
    print FetchingImages;;
    for_each urls download_image;;
    print Closing.

End Program.

(** ** The program over a console that may refuse a line

    [print] encodes the line for the terminal and raises when that fails.
    The functions that print are repeated here over a console that tells,
    for every line, what [print] raises for it, if anything; the others
    are shared with the model above. *)

Module Console.

Section Program.

Variable console : line → option exn.
Variable urlparse : string → result ParseResult.
Variable http : nat → string → get_outcome.

Definition print (l : line) : IO unit :=
  match console l with
  | Some e => mthrow e
  | None => emit (EvPrint l)
  end.

(** Persister (lines 56-68) *)
Definition persist (response : Response) (filename filepath : string)
  : IO unit :=
  duplicate ← file_already_exists filepath;
  if (duplicate : bool) then print (SkippingDuplicate filename)
  else
    open_wb filepath;;
    finally (stream_to filepath response) (f_close filepath);;
    print (SuccessfullyFetched filename);;
    print (ImageSavedTo filepath).

(** The body of the [try] (lines 45-68) *)
Definition download_image_try (url : string) : IO unit :=
  response ← requests_get http url;
  lift (raise_for_status response);;
  lift (validate_response_headers response);;
  filename ← lift (get_filename_from_url urlparse url);
  let filepath := OsPath.join SAVE_DIR filename in
  persist response filename filepath.

(** The three [except] clauses (lines 70-75): what their [print] raises
    leaves [download_image]. *)
Definition report (url : string) (e : exn) : IO unit :=
  match e with
  | RequestException msg => print (ConnectionErrorFor url msg)
  | ValueError msg => print (SkippingUrl url msg)
  | OtherException msg => print (UnexpectedErrorFor url msg)
  end.

Definition download_image (url : string) : IO unit :=
  try_except (download_image_try url) (report url).

Definition main (urls_input : string) : IO unit :=
  print Welcome;;
  print Tagline;;
  emit EvInput;;
  let urls := collect_urls urls_input in
  if negb (bool_decide (urls ≠ [])) then print NoValidUrls
  else
    create_save_directory;;
    print FetchingImages;;
    for_each urls download_image;;
    print Closing.

End Program.

End Console.

(** ** A reference instance of the environment

    [UrlLib.urlparse] follows [urllib.parse.urlparse] of CPython 3.12 for
    text URLs, without the validation of bracketed hosts and of non-ASCII
    host names.  The theorems below hold for every [urlparse]; this one
    serves to run the program on concrete URLs. *)

Module UrlLib.

(** [s.partition(c)], when [c] occurs in [s] *)
Fixpoint cut (c : ascii) (s : string) : option (string * string) :=
  match s with
  | "" => None
  | String d s' =>
      if Ascii.eqb d c then Some ("", s')
      else '(a, b) ← cut c s'; Some (String d a, b)
  end.

Fixpoint span (stop : ascii → bool) (s : string) : string * string :=
  match s with
  | "" => ("", "")
  | String c s' =>
      if stop c then ("", s)
      else let '(a, b) := span stop s' in (String c a, b)
  end.

Fixpoint keep (p : ascii → bool) (s : string) : string :=
  match s with
  | "" => ""
  | String c s' => if p c then String c (keep p s') else keep p s'
  end.

Definition between (lo hi : N) (c : ascii) : bool :=
  ((lo <=? PyStr.code c) && (PyStr.code c <=? hi))%N.

Definition is_alpha (c : ascii) : bool := between 65 90 c || between 97 122 c.

Definition scheme_char (c : ascii) : bool :=
  is_alpha c || between 48 57 c
  || Ascii.eqb c "+" || Ascii.eqb c "-" || Ascii.eqb c ".".

Definition uses_params : list string :=
  [""; "ftp"; "hdl"; "prospero"; "http"; "imap"; "https"; "shttp"; "rtsp";
   "rtspu"; "sip"; "sips"; "mms"; "sftp"; "tel"].

(** Leading C0 controls and spaces go, and TAB, LF, CR anywhere. *)
Definition clean (url : string) : string :=
  keep (λ c, negb (between 9 10 c || between 13 13 c))
       (snd (span (λ c, negb (between 0 32 c)) url)).

Definition split_scheme (url : string) : string * string :=
  match cut ":" url with
  | Some (String c pre, rest) =>
      if is_alpha c && PyStr.all scheme_char pre
      then (PyStr.lower (String c pre), rest)
      else ("", url)
  | _ => ("", url)
  end.

Definition split_netloc (url : string) : string * string :=
  match url with
  | String "/" (String "/" rest) =>
      span (λ c, Ascii.eqb c "/" || Ascii.eqb c "?" || Ascii.eqb c "#") rest
  | _ => ("", url)
  end.

Definition split_at (c : ascii) (url : string) : string * string :=
  match cut c url with
  | Some (a, b) => (a, b)
  | None => (url, "")
  end.

(** The parameters of the last path segment. *)
Definition split_params (url : string) : string * string :=
  let i := PyStr.after_last "/" url in
  match cut ";" (PyStr.drop i url) with
  | Some (a, b) => (PyStr.take i url +:+ a, b)
  | None => (url, "")
  end.

Definition urlparse (url : string) : result ParseResult :=
  let '(scheme, url) := split_scheme (clean url) in
  let '(netloc, url) := split_netloc url in
  if xorb (PyStr.contains "[" netloc) (PyStr.contains "]" netloc)
  then Raise (ValueError "Invalid IPv6 URL")
  else
    let '(url, fragment) := split_at "#" url in
    let '(url, query) := split_at "?" url in
    let '(url, params) :=
      if existsb (String.eqb scheme) uses_params && PyStr.contains ";" url
      then split_params url else (url, "") in
    Ok {| scheme := scheme; netloc := netloc; path := url;
          params := params; query := query; fragment := fragment |}.

End UrlLib.

(** ** Vocabulary for the statements *)

(** The world after more events, the file system untouched. *)
Definition log (evs : list event) (w : World) : World :=
  {| fs := fs w; trace := trace w ++ evs |}.

(** The URLs handed to [requests.get], in order. *)
Definition requested (t : list event) : list string :=
  omap (λ e, match e with EvGet url => Some url | _ => None end) t.

(** The line the matching [except] clause prints for [e]. *)
Definition report_line (url : string) (e : exn) : line :=
  match e with
  | RequestException msg => ConnectionErrorFor url msg
  | ValueError msg => SkippingUrl url msg
  | OtherException msg => UnexpectedErrorFor url msg
  end.

(** Events of the Persister's write path: opening the destination and
    writing a chunk to it. *)
Definition writes_file (e : event) : bool :=
  match e with
  | EvOpen _ | EvWrite _ _ => true
  | _ => false
  end.

(** The chunks that reach [f.write]: the non-empty ones. *)
Definition written (p : string) (chunks : list bytes) : list event :=
  EvWrite p <$> List.filter bytes_truthy chunks.

(** [w'] differs from [w] on disk at most in the file at [p]. *)
Definition frame (p : string) (w w' : World) : Prop :=
  dirs (fs w') = dirs (fs w)
  ∧ ∀ q, q ≠ p → files (fs w') !! q = files (fs w) !! q.

(** The steps of the [try] before the Persister: the fetch, the status
    check, the Safety Validator and the Destination Resolver.  They touch
    neither the disk nor the console. *)
Definition admission (urlparse : string → result ParseResult)
    (http : nat → string → get_outcome) (url : string) (w : World)
  : result (Response * string) :=
  match http (requests_made (trace w)) url with
  | Failed e => Raise e
  | Responded response =>
      raise_for_status response;;
      validate_response_headers response;;
      filename ← get_filename_from_url urlparse url;
      Ok (response, filename)
  end.

(** A response built from a status, a header list and body chunks, the
    header names stored lower-cased as [requests] does. *)
Definition response_of (status : Z) (hdrs : list (string * string))
    (chunks : list bytes) : Response :=
  {| status_code := status;
     http_error := "";
     headers := list_to_map (prod_map PyStr.lower id <$> hdrs);
     content := chunks;
     content_error := None |}.

(** [f] is the final segment of the path [p]: what follows the last
    slash, or all of [p] when it has none. *)
Definition final_segment (p f : string) : Prop :=
  ∃ head, p = head +:+ f
          ∧ (head = "" ∨ PyStr.last head = Some "/"%char)
          ∧ PyStr.contains "/" f = false.

Definition is_hex (c : ascii) : bool :=
  PyStr.contains c "0123456789abcdef".

(** A URL as the Input Collector hands it on: not empty, without a comma,
    and with no whitespace at either end. *)
Definition clean_url (u : string) : Prop :=
  u ≠ ""
  ∧ PyStr.contains "," u = false
  ∧ (∀ c, PyStr.head u = Some c → PyStr.isspace c = false)
  ∧ (∀ c, PyStr.last u = Some c → PyStr.isspace c = false).

(** A path directly below the save directory: [Fetched_Images/<name>] with
    a name that is not empty and has no slash. *)
Definition under_save_dir (p : string) : Prop :=
  ∃ name, p = "Fetched_Images/" +:+ name
          ∧ name ≠ ""
          ∧ PyStr.contains "/" name = false.

(** The path a file event works on. *)
Definition event_path (e : event) : option string :=
  match e with
  | EvOpen p | EvWrite p _ | EvClose p => Some p
  | _ => None
  end.

(** What the run of [download_image] adds to the trace once the Persister
    has opened [p]: the open, one write per non-empty chunk, the close, and
    then the two success lines or the line of the exception that broke the
    stream. *)
Definition stored_events (url filename p : string) (response : Response)
  : list event :=
  [EvGet url; EvOpen p] ++ written p (content response)
  ++ EvClose p
     :: match content_error response with
        | None => [EvPrint (SuccessfullyFetched filename);
                   EvPrint (ImageSavedTo p)]
        | Some e => [EvPrint (report_line url e)]
        end.

(** The console lines of a trace, in order. *)
Definition printed (t : list event) : list line :=
  omap (λ e, match e with EvPrint l => Some l | _ => None end) t.

(** A computation is quiet when it makes no request, however it ends. *)
Definition quiet {A} (m : IO A) : Prop :=
  ∀ w, ∃ delta, trace (m w).1 = trace w ++ delta ∧ requested delta = [].

(** ** Sample responses, networks and worlds *)

Definition jpeg_chunk : bytes := [Byte.xff; Byte.xd8; Byte.xff; Byte.xe0].

Definition small_jpeg : Response :=
  response_of 200
    [("Content-Type", "image/jpeg"); ("Content-Length", "8")]
    [jpeg_chunk; []; jpeg_chunk].

Definition small_png : Response :=
  response_of 200 [("Content-Type", "Image/PNG")] [jpeg_chunk].

Definition html_page : Response :=
  response_of 200
    [("Content-Type", "text/html"); ("Content-Length", "11000000")] [].

Definition huge_png : Response :=
  response_of 200
    [("Content-Type", "image/png"); ("Content-Length", "11000000")] [].

Definition untyped : Response :=
  response_of 200 [("Content-Length", "4")] [jpeg_chunk].

Definition not_found : Response :=
  {| status_code := 404;
     http_error := "404 Client Error: Not Found";
     headers := ∅;
     content := [];
     content_error := None |}.

(** A network that serves a few fixed URLs, whatever the request number. *)
Definition sample_http (n : nat) (url : string) : get_outcome :=
  if String.eqb url "http://example.com/cat.jpg" then Responded small_jpeg
  else if String.eqb url "http://example.com/" then Responded small_png
  else if String.eqb url "http://example.com/page" then Responded html_page
  else if String.eqb url "http://example.com/huge.png" then Responded huge_png
  else if String.eqb url "http://example.com/raw" then Responded untyped
  else if String.eqb url "http://down.example/a.png"
  then Failed (RequestException "Connection timed out")
  else Responded not_found.

Definition empty_world : World :=
  {| fs := {| dirs := ∅; files := ∅ |}; trace := [] |}.

(** A terminal that takes every line, and one whose encoding is ASCII:
    there [print] raises [UnicodeEncodeError], a [ValueError], on each of
    the lines that start with a status symbol. *)
Definition utf8_console (l : line) : option exn := None.

Definition unicode_encode_error (code_point : string) : exn :=
  ValueError ("'ascii' codec can't encode character '\u" +:+ code_point
              +:+ "' in position 0: ordinal not in range(128)").

Definition ascii_console (l : line) : option exn :=
  match l with
  | Welcome | Tagline | FetchingImages | Closing => None
  | SkippingDuplicate _ => Some (unicode_encode_error "26a0")
  | SuccessfullyFetched _ | ImageSavedTo _ =>
      Some (unicode_encode_error "2713")
  | NoValidUrls | ConnectionErrorFor _ _ | SkippingUrl _ _
  | UnexpectedErrorFor _ _ => Some (unicode_encode_error "2717")
  end.

(** The save directory with [cat.jpg] already in it. *)
Definition world_with_cat : World :=
  {| fs := {| dirs := {[SAVE_DIR]};
              files := {["Fetched_Images/cat.jpg" := [Byte.x2a]]} |};
     trace := [] |}.

(** * Verification *)

(** ** Facts about the string primitives *)

Section StringFacts.

Import PyStr.

Lemma app_cons c s t : String c s +:+ t = String c (s +:+ t).
Proof. reflexivity. Qed.

Lemma app_empty_l s : "" +:+ s = s.
Proof. reflexivity. Qed.

Lemma split_nonempty sep s : split sep s ≠ [].
Proof.
  destruct s as [|c s]; simpl; [discriminate|].
  destruct (Ascii.eqb c sep); [discriminate|].
  destruct (split sep s); discriminate.
Qed.

Lemma join_split sep s : join sep (split sep s) = s.
Proof.
  induction s as [|c s IH]; simpl; [reflexivity|].
  destruct (Ascii.eqb c sep) eqn:E.
  - apply Ascii.eqb_eq in E. subst c.
    pose proof (split_nonempty sep s) as Hne.
    destruct (split sep s) as [|p ps]; [congruence|].
    simpl in *. rewrite IH. reflexivity.
  - pose proof (split_nonempty sep s) as Hne.
    destruct (split sep s) as [|p ps]; [congruence|].
    destruct ps as [|q qs]; simpl in *; rewrite <- IH; reflexivity.
Qed.

Lemma split_pieces_free sep s p :
  In p (split sep s) → contains sep p = false.
Proof.
  revert p. induction s as [|c s IH]; simpl; intros p Hp.
  - destruct Hp as [<-|[]]. reflexivity.
  - destruct (Ascii.eqb c sep) eqn:E.
    + destruct Hp as [<-|Hp]; [reflexivity|auto].
    + pose proof (split_nonempty sep s) as Hne.
      destruct (split sep s) as [|q qs]; [congruence|].
      destruct Hp as [<-|Hp].
      * simpl. rewrite E. simpl. apply IH. now left.
      * apply IH. now right.
Qed.

Lemma truthy_true s : truthy s = true ↔ s ≠ "".
Proof. destruct s; simpl; split; congruence. Qed.

Lemma lstrip_decompose s :
  ∃ l, s = l +:+ lstrip s ∧ all_space l.
Proof.
  induction s as [|c s (l & Hl & Hsp)]; simpl.
  - exists "". split; [reflexivity|]. intros c; simpl; discriminate.
  - destruct (isspace c) eqn:E.
    + exists (String c l). split; [rewrite app_cons; congruence|].
      intros d; simpl. destruct (Ascii.eqb c d) eqn:Ed; simpl.
      * apply Ascii.eqb_eq in Ed. subst d. auto.
      * apply Hsp.
    + exists "". split; [reflexivity|]. intros d; simpl; discriminate.
Qed.

Lemma lstrip_head s c : head (lstrip s) = Some c → isspace c = false.
Proof.
  induction s as [|d s IH]; simpl; [discriminate|].
  destruct (isspace d) eqn:E; [exact IH|].
  simpl. intros [= <-]. exact E.
Qed.

Lemma rstrip_decompose s :
  ∃ r, s = rstrip s +:+ r ∧ all_space r.
Proof.
  induction s as [|c s (r & Hr & Hsp)]; simpl.
  - exists "". split; [reflexivity|]. intros c; simpl; discriminate.
  - destruct (rstrip s) as [|d t] eqn:Et.
    + rewrite app_empty_l in Hr. subst r.
      destruct (isspace c) eqn:E.
      * exists (String c s). split; [reflexivity|].
        intros e; simpl. destruct (Ascii.eqb c e) eqn:Ee; simpl.
        -- apply Ascii.eqb_eq in Ee. subst e. auto.
        -- apply Hsp.
      * exists s. split; [reflexivity|exact Hsp].
    + exists r. split; [rewrite app_cons; congruence|exact Hsp].
Qed.

Lemma rstrip_last s c : last (rstrip s) = Some c → isspace c = false.
Proof.
  induction s as [|d s IH]; simpl; [discriminate|].
  destruct (rstrip s) as [|e t] eqn:Et.
  - destruct (isspace d) eqn:E; simpl; [discriminate|].
    intros [= <-]. exact E.
  - simpl. exact IH.
Qed.

Lemma rstrip_head s c :
  head (rstrip s) = Some c → head s = Some c.
Proof.
  destruct s as [|d s]; simpl; [discriminate|].
  destruct (rstrip s); [destruct (isspace d)|]; simpl; congruence.
Qed.

(** [strip] removes a whitespace prefix and a whitespace suffix, and what
    is left neither starts nor ends with whitespace. *)
Lemma strip_decompose s :
  ∃ l r, s = l +:+ strip s +:+ r ∧ all_space l ∧ all_space r.
Proof.
  destruct (lstrip_decompose s) as (l & Hl & Hlsp).
  destruct (rstrip_decompose (lstrip s)) as (r & Hr & Hrsp).
  exists l, r. unfold strip. rewrite <- Hr. auto.
Qed.

Lemma strip_head s c : head (strip s) = Some c → isspace c = false.
Proof. intros H. apply rstrip_head in H. eapply lstrip_head, H. Qed.

Lemma strip_last s c : last (strip s) = Some c → isspace c = false.
Proof. apply rstrip_last. Qed.

End StringFacts.

Lemma filter_map_swap {A B} (f : A → B) (p : B → bool) (l : list A) :
  List.filter p (List.map f l) = List.map f (List.filter (λ x, p (f x)) l).
Proof.
  induction l as [|x l IH]; simpl; [reflexivity|].
  destruct (p (f x)); simpl; congruence.
Qed.

(** C5.  The Input Collector returns the comma-delimited pieces of the raw
    line, each trimmed of surrounding whitespace, without the pieces that
    are empty after trimming; order and duplicates are those of the pieces
    (a [filter] of a [map] neither reorders nor merges).  The pieces are
    the comma-delimited ones: joined by commas they give the line back and
    none contains a comma.  Trimming takes away a whitespace prefix and a
    whitespace suffix and leaves no whitespace at either end. *)
Theorem C5_input_collector (raw : string) :
  collect_urls raw = input_collector_spec raw
  ∧ PyStr.join "," (PyStr.split "," raw) = raw
  ∧ (∀ p, In p (PyStr.split "," raw) → PyStr.contains "," p = false)
  ∧ (∀ p, ∃ l r, p = l +:+ PyStr.strip p +:+ r
                 ∧ PyStr.all_space l ∧ PyStr.all_space r)
  ∧ (∀ p c, PyStr.head (PyStr.strip p) = Some c
            ∨ PyStr.last (PyStr.strip p) = Some c → PyStr.isspace c = false)
  ∧ length (collect_urls raw)
    = length (List.filter (λ p, PyStr.truthy (PyStr.strip p))
                (PyStr.split "," raw)).
Proof.
  repeat split.
  - unfold collect_urls, input_collector_spec. now rewrite filter_map_swap.
  - apply join_split.
  - apply split_pieces_free.
  - intros p. apply strip_decompose.
  - intros p c [H|H]; [eapply strip_head|eapply strip_last]; exact H.
  - unfold collect_urls. now rewrite length_map.
Qed.

(** ** The library models on known inputs *)

Example md5_empty :
  Hashlib.md5_hexdigest (Hashlib.encode "") = "d41d8cd98f00b204e9800998ecf8427e".
Proof. vm_compute. reflexivity. Qed.

Example md5_abc :
  Hashlib.md5_hexdigest (Hashlib.encode "abc") = "900150983cd24fb0d6963f7d28e17f72".
Proof. vm_compute. reflexivity. Qed.

Example md5_two_blocks :
  Hashlib.md5_hexdigest
    (Hashlib.encode "12345678901234567890123456789012345678901234567890123456789012345678901234567890")
  = "57edf4a22be3c955ac49da2e2107b67a".
Proof. vm_compute. reflexivity. Qed.

Example md5_55 :
  Hashlib.md5_hexdigest
    (Hashlib.encode "1234567890123456789012345678901234567890123456789012345")
  = "c9ccf168914a1bcfc3229f1948e67da0".
Proof. vm_compute. reflexivity. Qed.

Example md5_56 :
  Hashlib.md5_hexdigest
    (Hashlib.encode "12345678901234567890123456789012345678901234567890123456")
  = "49f193adce178490e34d1b3a4ec0064c".
Proof. vm_compute. reflexivity. Qed.

Example md5_latin1 :
  Hashlib.md5_hexdigest
    (Hashlib.encode (String "h" (String "t" (String (ascii_of_nat 233) ""))))
  = "bb157ce5aea15b6ef7f6e9be1c41b2e5".
Proof. vm_compute. reflexivity. Qed.

Example int_examples :
  PyInt.int " 11000000 " = Ok 11000000
  ∧ PyInt.int "1_000" = Ok 1000
  ∧ PyInt.int "-5" = Ok (-5)
  ∧ PyInt.int "+0010" = Ok 10
  ∧ PyInt.int (PyStr.of_codes [160; 53]%N) = Ok 5
  ∧ PyInt.int (PyStr.of_codes [133; 53; 133]%N) = Ok 5
  ∧ PyInt.int (PyStr.of_codes [53; 11]%N) = Ok 5
  ∧ PyInt.int (PyStr.of_codes [12; 53; 9; 10; 13]%N) = Ok 5
  ∧ PyInt.int "1__0"
    = Raise (ValueError "invalid literal for int() with base 10: '1__0'")
  ∧ PyInt.int "12_"
    = Raise (ValueError "invalid literal for int() with base 10: '12_'")
  ∧ PyInt.int ""
    = Raise (ValueError "invalid literal for int() with base 10: ''")
  ∧ PyInt.int " "
    = Raise (ValueError "invalid literal for int() with base 10: ' '")
  ∧ PyInt.int "abc"
    = Raise (ValueError "invalid literal for int() with base 10: 'abc'")
  ∧ PyInt.int (PyStr.of_codes [53;
         31]%N)
    = Raise (ValueError "invalid literal for int() with base 10: '5\x1f'")
  ∧ PyInt.int (PyStr.of_codes [28;
         53]%N)
    = Raise (ValueError "invalid literal for int() with base 10: '\x1c5'")
  ∧ PyInt.int (PyStr.of_codes [53; 31;
         160]%N)
    = Raise (ValueError "invalid literal for int() with base 10: '5\x1f\xa0'")
  ∧ PyInt.int "+ 5"
    = Raise (ValueError "invalid literal for int() with base 10: '+ 5'")
  ∧ PyInt.int "_5"
    = Raise (ValueError "invalid literal for int() with base 10: '_5'")
  ∧ PyInt.int "--5"
    = Raise (ValueError "invalid literal for int() with base 10: '--5'")
  ∧ PyInt.int (PyStr.of_codes [53;
         0]%N)
    = Raise (ValueError "invalid literal for int() with base 10: '5\x00'")
  ∧ PyInt.int "12'"
    = Raise (ValueError (PyStr.of_codes [105; 110; 118;
         97; 108; 105; 100; 32; 108; 105; 116; 101; 114; 97; 108; 32; 102;
         111; 114; 32; 105; 110; 116; 40; 41; 32; 119; 105; 116; 104; 32; 98;
         97; 115; 101; 32; 49; 48; 58; 32; 34; 49; 50; 39; 34]%N))
  ∧ PyInt.int (PyStr.of_codes [49; 39; 34;
         50]%N)
    = Raise (ValueError (PyStr.of_codes [105; 110; 118; 97;
         108; 105; 100; 32; 108; 105; 116; 101; 114; 97; 108; 32; 102; 111;
         114; 32; 105; 110; 116; 40; 41; 32; 119; 105; 116; 104; 32; 98; 97;
         115; 101; 32; 49; 48; 58; 32; 39; 49; 92; 39; 34; 50; 39]%N))
  ∧ PyInt.int "a\b"
    = Raise (ValueError "invalid literal for int() with base 10: 'a\\b'")
  ∧ PyInt.int (PyStr.of_codes [97; 10;
         98]%N)
    = Raise (ValueError "invalid literal for int() with base 10: 'a\nb'")
  ∧ PyInt.int (PyStr.of_codes [128]%N)
    = Raise (ValueError "invalid literal for int() with base 10: '\x80'")
  ∧ PyInt.int (PyStr.of_codes [173;
         120]%N)
    = Raise (ValueError "invalid literal for int() with base 10: '\xadx'")
  ∧ PyInt.int (PyStr.of_codes [233]%N)
    = Raise (ValueError (PyStr.of_codes [105;
         110; 118; 97; 108; 105; 100; 32; 108; 105; 116; 101; 114; 97; 108;
         32; 102; 111; 114; 32; 105; 110; 116; 40; 41; 32; 119; 105; 116;
         104; 32; 98; 97; 115; 101; 32; 49; 48; 58; 32; 39; 233; 39]%N))
  ∧ PyInt.int "12 kB"
    = Raise (ValueError "invalid literal for int() with base 10: '12 kB'")
  ∧ PyInt.int "1e3"
    = Raise (ValueError "invalid literal for int() with base 10: '1e3'")
  ∧ PyInt.int "0x10"
    = Raise (ValueError "invalid literal for int() with base 10: '0x10'")
  ∧ PyInt.int "5.0"
    = Raise (ValueError "invalid literal for int() with base 10: '5.0'").
Proof. vm_compute. repeat split. Qed.

Example repr_examples :
  PyStr.repr "cat.jpg" = "'cat.jpg'"
  ∧ PyStr.repr "it's" = (PyStr.of_codes [34; 105; 116; 39; 115; 34]%N)
  ∧ PyStr.repr (PyStr.of_codes [115; 97; 121; 32; 34; 104; 105;
         34]%N)
    = (PyStr.of_codes [39; 115; 97; 121; 32; 34; 104; 105; 34;
         39]%N)
  ∧ PyStr.repr (PyStr.of_codes [39; 34]%N) = (PyStr.of_codes [39; 92; 39; 34; 39]%N)
  ∧ PyStr.repr "a\b" = "'a\\b'"
  ∧ PyStr.repr (PyStr.of_codes [9; 10; 13]%N) = "'\t\n\r'"
  ∧ PyStr.repr (PyStr.of_codes [0; 31; 127; 128; 159; 160;
         173]%N)
    = "'\x00\x1f\x7f\x80\x9f\xa0\xad'"
  ∧ PyStr.repr (PyStr.of_codes [161; 172; 174;
         255]%N)
    = (PyStr.of_codes [39; 161; 172; 174; 255; 39]%N)
  ∧ PyStr.repr "" = "''"
  ∧ PyStr.repr "Fetched_Images/a b" = "'Fetched_Images/a b'".
Proof. vm_compute. repeat split. Qed.

Example int_digit_limit :
  let exceeds :=
    ValueError "Exceeds the limit (4300 digits) for integer string conversion: value has 4301 digits; use sys.set_int_max_str_digits() to increase the limit" in
  PyInt.int (PyStr.times 4300 "9") = Ok (10 ^ 4300 - 1)
  ∧ PyInt.int (PyStr.times 4301 "9") = Raise exceeds
  ∧ PyInt.int (PyStr.times 4301 "9" +:+ "x") = Raise exceeds
  ∧ PyInt.int (PyStr.times 4300 "0" +:+ "1") = Raise exceeds
  ∧ PyInt.int (PyStr.times 250 "x")
    = Raise (ValueError ("invalid literal for int() with base 10: '"
                         +:+ PyStr.times 199 "x")).
Proof. vm_compute. repeat split. Qed.

(** [open] on a disk with a directory [D] and a regular file [F]. *)
Example open_examples :
  let disk := {| dirs := {["D"]}; files := {["F" := []]} |} in
  open_error disk "D/x" = None
  ∧ open_error disk "x" = None
  ∧ open_error disk "nodir/x"
    = Some (OtherException "[Errno 2] No such file or directory: 'nodir/x'")
  ∧ open_error disk ("nodir/" +:+ PyStr.times 300 "a")
    = Some (OtherException ("[Errno 2] No such file or directory: 'nodir/"
                            +:+ PyStr.times 300 "a" +:+ "'"))
  ∧ open_error disk (PyStr.of_codes [68; 47; 97; 0; 98]%N)
    = Some (ValueError "embedded null byte")
  ∧ open_error disk (PyStr.of_codes [110; 47; 97; 0; 98]%N)
    = Some (ValueError "embedded null byte")
  ∧ open_error disk "D"
    = Some (OtherException "[Errno 21] Is a directory: 'D'")
  ∧ open_error disk "D/.."
    = Some (OtherException "[Errno 21] Is a directory: 'D/..'")
  ∧ open_error disk "F/x"
    = Some (OtherException "[Errno 20] Not a directory: 'F/x'")
  ∧ open_error disk ("D/" +:+ PyStr.times 255 "a") = None
  ∧ open_error disk ("D/" +:+ PyStr.times 256 "a")
    = Some (OtherException ("[Errno 36] File name too long: 'D/"
                            +:+ PyStr.times 256 "a" +:+ "'"))
  ∧ open_error disk ("D/" +:+ PyStr.times 127 "233") = None
  ∧ open_error disk ("D/" +:+ PyStr.times 128 "233")
    = Some (OtherException ("[Errno 36] File name too long: 'D/"
                            +:+ PyStr.times 128 "233" +:+ "'")).
Proof. vm_compute. repeat split. Qed.

Example path_examples :
  OsPath.basename "/images/cat.jpg" = "cat.jpg"
  ∧ OsPath.basename "/images/" = ""
  ∧ OsPath.basename "" = ""
  ∧ OsPath.basename "cat.jpg" = "cat.jpg"
  ∧ OsPath.join "Fetched_Images" "cat.jpg" = "Fetched_Images/cat.jpg"
  ∧ OsPath.dirname "Fetched_Images/cat.jpg" = "Fetched_Images"
  ∧ OsPath.dirname "cat.jpg" = ""
  ∧ OsPath.dirname "/cat.jpg" = "/".
Proof. vm_compute. repeat split. Qed.

Example urlparse_examples :
  path <$> UrlLib.urlparse "http://example.com/images/cat.jpg?size=2#top"
  = Ok "/images/cat.jpg"
  ∧ path <$> UrlLib.urlparse "http://example.com/" = Ok "/"
  ∧ path <$> UrlLib.urlparse "http://example.com" = Ok ""
  ∧ path <$> UrlLib.urlparse "HTTPS://example.com/a/b.png;v=1" = Ok "/a/b.png"
  ∧ path <$> UrlLib.urlparse "cat.jpg" = Ok "cat.jpg"
  ∧ UrlLib.urlparse "http://[::1/x.png" = Raise (ValueError "Invalid IPv6 URL").
Proof. vm_compute. repeat split. Qed.

(** ** Running [IO] computations *)

(** Unfolds the monad operations and the primitives down to worlds. *)
Ltac io_red :=
  repeat (unfold mbind, mret, mthrow, IO_bind, IO_ret, IO_throw, emit, print,
            get_fs, get_trace, update_fs, lift;
          cbn [fst snd fs trace]).

Lemma emit_run e w : emit e w = (log [e] w, Ok tt).
Proof. reflexivity. Qed.

Lemma print_run l w : print l w = (log [EvPrint l] w, Ok tt).
Proof. reflexivity. Qed.

Lemma log_log a b w : log a (log b w) = log (b ++ a) w.
Proof. unfold log; simpl. now rewrite app_assoc. Qed.

Lemma log_nil w : log [] w = w.
Proof. destruct w; unfold log; simpl. now rewrite app_nil_r. Qed.

Lemma bind_run {A B} (m : IO A) (f : A → IO B) w :
  (m ≫= f) w = match m w with
               | (w', Ok a) => f a w'
               | (w', Raise e) => (w', Raise e)
               end.
Proof. reflexivity. Qed.

Lemma report_run url e w :
  report url e w = (log [EvPrint (report_line url e)] w, Ok tt).
Proof. destruct e; reflexivity. Qed.

(** Closes a goal in which the handler's line is the last event. *)
Ltac reported :=
  rewrite report_run; unfold log; cbn [fs trace];
  rewrite <- ?app_assoc; reflexivity.

Lemma requested_app t1 t2 : requested (t1 ++ t2) = requested t1 ++ requested t2.
Proof. unfold requested. apply omap_app. Qed.

(** ** The write path *)

Lemma frame_refl p w : frame p w w.
Proof. split; auto. Qed.

Lemma frame_trans p w1 w2 w3 : frame p w1 w2 → frame p w2 w3 → frame p w1 w3.
Proof.
  intros [Hd1 Hf1] [Hd2 Hf2]. split; [congruence|].
  intros q Hq. rewrite Hf2, Hf1; auto.
Qed.

Lemma frame_log p evs w : frame p w (log evs w).
Proof. split; auto. Qed.

Lemma f_write_run p chunk w :
  ∃ w', f_write p chunk w = (w', Ok tt)
        ∧ trace w' = trace w ++ [EvWrite p chunk] ∧ frame p w w'.
Proof.
  eexists. split; [reflexivity|]. split; [reflexivity|].
  split; [reflexivity|]. intros q Hq. simpl. now rewrite lookup_insert_ne.
Qed.

Lemma write_chunks_run p chunks w :
  ∃ w', write_chunks p chunks w = (w', Ok tt)
        ∧ trace w' = trace w ++ written p chunks ∧ frame p w w'.
Proof.
  revert w. induction chunks as [|chunk rest IH]; intros w.
  - exists w. split; [reflexivity|]. split; [|apply frame_refl].
    unfold written; simpl. now rewrite app_nil_r.
  - cbn [write_chunks]. rewrite bind_run. unfold written. cbn [List.filter].
    destruct (bytes_truthy chunk).
    + destruct (f_write_run p chunk w) as (w1 & -> & Ht1 & Hf1).
      destruct (IH w1) as (w2 & -> & Ht2 & Hf2).
      exists w2. split; [reflexivity|]. split; [|eapply frame_trans; eauto].
      rewrite Ht2, Ht1, <- app_assoc. reflexivity.
    + change ((mret tt : IO unit) w) with (w, @Ok unit tt).
      cbv iota beta. apply IH.
Qed.

Lemma requested_written p chunks : requested (written p chunks) = [].
Proof.
  unfold written. induction (List.filter bytes_truthy chunks); [reflexivity|].
  exact IHl.
Qed.

Lemma persist_duplicate response filename filepath w :
  path_exists (fs w) filepath = true →
  persist response filename filepath w
  = (log [EvPrint (SkippingDuplicate filename)] w, Ok tt).
Proof.
  intros H. unfold persist, file_already_exists, get_fs.
  rewrite !bind_run. cbn. rewrite H. reflexivity.
Qed.

Lemma open_wb_run p w :
  (∃ e, open_wb p w = (log [EvOpen p] w, Raise e))
  ∨ (∃ w1, open_wb p w = (w1, Ok tt)
           ∧ trace w1 = trace w ++ [EvOpen p] ∧ frame p w w1).
Proof.
  unfold open_wb. io_red.
  destruct (open_error (fs w) p); [left; eexists; reflexivity|].
  right. eexists. split; [reflexivity|]. split; [reflexivity|].
  split; [reflexivity|]. intros q Hq. cbn. now rewrite lookup_insert_ne.
Qed.

Lemma stream_run p response w :
  ∃ w1,
    finally (stream_to p response) (f_close p) w
    = (w1, match content_error response with
           | Some e => Raise e
           | None => Ok tt
           end)
    ∧ trace w1 = trace w ++ written p (content response) ++ [EvClose p]
    ∧ frame p w w1.
Proof.
  unfold finally, stream_to. rewrite bind_run.
  destruct (write_chunks_run p (content response) w) as (w1 & -> & Ht & Hf).
  exists (log [EvClose p] w1).
  split; [destruct (content_error response); reflexivity|].
  split; [cbn; now rewrite Ht, <- app_assoc|].
  eapply frame_trans; [exact Hf|apply frame_log].
Qed.

Lemma persist_new response filename filepath w :
  path_exists (fs w) filepath = false →
  ∃ w' delta res,
    persist response filename filepath w = (w', res)
    ∧ trace w' = trace w ++ EvOpen filepath :: delta
    ∧ requested delta = []
    ∧ frame filepath w w'.
Proof.
  intros H. unfold persist, file_already_exists, get_fs.
  rewrite !bind_run. cbn. rewrite H.
  rewrite bind_run.
  destruct (open_wb_run filepath w) as [[e ->]|(w1 & -> & Ht1 & Hf1)].
  { exists (log [EvOpen filepath] w), [], (Raise e).
    repeat split; auto. }
  rewrite bind_run.
  destruct (stream_run filepath response w1) as (w2 & -> & Ht2 & Hf2).
  destruct (content_error response) as [e|].
  - exists w2, (written filepath (content response) ++ [EvClose filepath]), (Raise e).
    split; [reflexivity|]. split; [rewrite Ht2, Ht1, <- app_assoc; reflexivity|].
    split; [|eapply frame_trans; eauto].
    rewrite requested_app, requested_written. reflexivity.
  - eexists _, (written filepath (content response)
                ++ [EvClose filepath; EvPrint (SuccessfullyFetched filename);
                    EvPrint (ImageSavedTo filepath)]), _.
    split; [reflexivity|]. split.
    + cbn. rewrite Ht2, Ht1, <- !app_assoc. reflexivity.
    + split; [rewrite requested_app, requested_written; reflexivity|].
      eapply frame_trans; [exact Hf1|]. destruct Hf2 as [Hd Hq]. split; auto.
Qed.

(** ** One URL *)

Section OneUrl.

Variable urlparse : string → result ParseResult.
Variable http : nat → string → get_outcome.

Lemma download_image_admission url w :
  download_image urlparse http url w
  = match admission urlparse http url w with
    | Raise e => (log [EvGet url; EvPrint (report_line url e)] w, Ok tt)
    | Ok (response, filename) =>
        try_except
          (persist response filename (OsPath.join SAVE_DIR filename))
          (report url) (log [EvGet url] w)
    end.
Proof.
  unfold download_image, download_image_try, try_except, requests_get, admission.
  io_red.
  destruct (http (requests_made (trace w)) url) as [r|e]; cbn [fst snd fs trace].
  - destruct (raise_for_status r) as [[]|e]; cbn.
    + destruct (validate_response_headers r) as [[]|e]; cbn.
      * destruct (get_filename_from_url urlparse url) as [filename|e]; cbn.
        -- reflexivity.
        -- reported.
      * reported.
    + reported.
  - reported.
Qed.

Lemma admission_inv url w response filename :
  admission urlparse http url w = Ok (response, filename) →
  http (requests_made (trace w)) url = Responded response
  ∧ raise_for_status response = Ok tt
  ∧ validate_response_headers response = Ok tt
  ∧ get_filename_from_url urlparse url = Ok filename.
Proof.
  unfold admission.
  destruct (http _ url) as [r|e]; [|discriminate].
  destruct (raise_for_status r) as [[]|e] eqn:Hs; [|discriminate].
  destruct (validate_response_headers r) as [[]|e] eqn:Hv; [|discriminate].
  destruct (get_filename_from_url urlparse url) as [f|e] eqn:Hf; [|discriminate].
  cbn. intros [= <- <-]. rewrite Hs, Hv. auto.
Qed.

(** Every run of [download_image] returns normally, starts with the
    request, and either leaves the disk alone and produces no write event,
    or went through the whole admission and changed at most the one
    destination, which did not exist. *)
Lemma download_image_cases url w :
  ∃ w' delta,
    download_image urlparse http url w = (w', Ok tt)
    ∧ trace w' = trace w ++ EvGet url :: delta
    ∧ requested delta = []
    ∧ ((fs w' = fs w ∧ Forall (λ e, writes_file e = false) delta)
       ∨ ∃ response filename,
           admission urlparse http url w = Ok (response, filename)
           ∧ path_exists (fs w) (OsPath.join SAVE_DIR filename) = false
           ∧ frame (OsPath.join SAVE_DIR filename) w w').
Proof.
  rewrite download_image_admission.
  destruct (admission urlparse http url w) as [[response filename]|e] eqn:Ha.
  - unfold try_except.
    destruct (path_exists (fs w) (OsPath.join SAVE_DIR filename)) eqn:Hex.
    + rewrite persist_duplicate by exact Hex. rewrite log_log.
      eexists _, [_]. split; [reflexivity|]. split; [reflexivity|].
      split; [reflexivity|]. left. split; [reflexivity|].
      repeat constructor.
    + destruct (persist_new response filename _ (log [EvGet url] w) Hex)
        as (w1 & delta & res & -> & Ht & Hreq & Hfr).
      destruct res as [[]|e].
      * exists w1, (EvOpen (OsPath.join SAVE_DIR filename) :: delta).
        split; [reflexivity|]. split; [rewrite Ht; cbn; now rewrite <- app_assoc|].
        split; [exact Hreq|]. right. exists response, filename. auto.
      * rewrite report_run.
        exists (log [EvPrint (report_line url e)] w1),
          (EvOpen (OsPath.join SAVE_DIR filename) :: delta
           ++ [EvPrint (report_line url e)]).
        split; [reflexivity|]. split.
        { cbn. rewrite Ht. cbn. rewrite <- !app_assoc. reflexivity. }
        split.
        { change (requested (delta ++ [EvPrint (report_line url e)]) = []).
          rewrite requested_app, Hreq. reflexivity. }
        right. exists response, filename. split; [reflexivity|].
        split; [exact Hex|]. exact Hfr.
  - eexists _, [_]. split; [reflexivity|]. split; [reflexivity|].
    split; [reflexivity|]. left. split; [reflexivity|]. repeat constructor.
Qed.

End OneUrl.


(** ** Safety Validator *)

Lemma validate_unfold r :
  validate_response_headers r
  = if negb (PyStr.startswith (declared_content_type r) "image/")
    then Raise invalid_file_type
    else match headers_get r "Content-Length" with
         | None => Ok tt
         | Some v =>
             if PyStr.truthy v
             then match PyInt.int v with
                  | Ok n => if size_limit <? n then Raise file_too_large else Ok tt
                  | Raise e => Raise e
                  end
             else Ok tt
         end.
Proof.
  unfold validate_response_headers, exceeds_limit.
  destruct (negb _); [reflexivity|].
  destruct (headers_get r "Content-Length") as [v|]; [|reflexivity].
  destruct (PyStr.truthy v); [|reflexivity].
  destruct (PyInt.int v) as [n|e]; cbn; [|reflexivity].
  destruct (size_limit <? n); reflexivity.
Qed.

Lemma int_raises v e :
  PyInt.int v = Raise e →
  e = PyInt.invalid_literal v
  ∨ ∃ count, (PyInt.max_str_digits < count)%nat ∧ e = PyInt.exceeds_limit count.
Proof.
  unfold PyInt.int.
  match goal with
  | |- context [let '(_, _) := ?x in _] => destruct x as [sign body]
  end.
  destruct (PyInt.scan 0 0 PyInt.Nothing body) as [[[n count] rest]|];
    [|intros [= <-]; auto].
  destruct (_ <? _)%nat eqn:Hc;
    [apply Nat.ltb_lt in Hc; intros [= <-]; eauto|].
  destruct rest; [discriminate|intros [= <-]; auto].
Qed.

(** Neither message of [int] is one of the validator's own. *)
Lemma int_raises_other v e :
  PyInt.int v = Raise e → e ≠ invalid_file_type ∧ e ≠ file_too_large.
Proof.
  intros [->|(count & _ & ->)]%int_raises;
    unfold PyInt.invalid_literal, PyInt.exceeds_limit, invalid_file_type,
      file_too_large;
    split; intros H; discriminate H.
Qed.

Lemma validate_invalid_type r :
  validate_response_headers r = Raise invalid_file_type
  ↔ PyStr.startswith (declared_content_type r) "image/" = false.
Proof.
  rewrite validate_unfold.
  destruct (PyStr.startswith (declared_content_type r) "image/"); cbn [negb].
  - split; [|discriminate]. intros H. exfalso.
    destruct (headers_get r "Content-Length") as [v|]; [|discriminate H].
    destruct (PyStr.truthy v); [|discriminate H].
    destruct (PyInt.int v) as [n|e] eqn:Hi.
    + destruct (size_limit <? n); discriminate H.
    + apply int_raises_other in Hi. destruct Hi as [Hi _].
      apply Hi. congruence.
  - tauto.
Qed.

Lemma validate_too_large r :
  PyStr.startswith (declared_content_type r) "image/" = true →
  validate_response_headers r = Raise file_too_large
  ↔ ∃ v n, headers_get r "Content-Length" = Some v ∧ v ≠ ""
           ∧ PyInt.int v = Ok n ∧ size_limit < n.
Proof.
  intros Ht. rewrite validate_unfold, Ht. cbn [negb].
  destruct (headers_get r "Content-Length") as [v|].
  - destruct (PyStr.truthy v) eqn:Hv.
    + apply truthy_true in Hv.
      destruct (PyInt.int v) as [n|e] eqn:Hi.
      * destruct (size_limit <? n) eqn:Hn.
        -- apply Z.ltb_lt in Hn. split; [|reflexivity].
           intros _. exists v, n. auto.
        -- apply Z.ltb_ge in Hn. split; [discriminate|].
           intros (v' & n' & Hv' & _ & Hi' & Hlt). simplify_eq.
           rewrite Hi in Hi'. simplify_eq. lia.
      * split.
        -- intros H. apply int_raises_other in Hi. destruct Hi as [_ Hi].
           exfalso. apply Hi. congruence.
        -- intros (v' & n' & Hv' & _ & Hi' & _). simplify_eq.
           rewrite Hi in Hi'. discriminate Hi'.
    + split; [discriminate|].
      intros (v' & n' & ? & Hne & _). simplify_eq.
      destruct v'; [congruence|discriminate].
  - split; [discriminate|]. intros (v & n & H & _). discriminate.
Qed.

Lemma download_rejected urlparse http url w r e :
  http (requests_made (trace w)) url = Responded r →
  raise_for_status r = Ok tt →
  validate_response_headers r = Raise e →
  download_image urlparse http url w
  = (log [EvGet url; EvPrint (report_line url e)] w, Ok tt).
Proof.
  intros Hh Hs Hv. rewrite download_image_admission. unfold admission.
  rewrite Hh, Hs. cbn. rewrite Hv. reflexivity.
Qed.

(** C2, as the code has it.  For a response with a successful status, the
    Safety Validator raises the invalid-file-type [ValueError] exactly when
    the declared Content-Type, lower-cased, does not start with [image/].
    In that case [download_image] prints the skip line for the URL after
    the request and returns with the disk as it was: no file is created. *)
Theorem C2_content_type (r : Response) :
  raise_for_status r = Ok tt →
  (validate_response_headers r = Raise invalid_file_type
   ↔ PyStr.startswith
       (PyStr.lower (default "" (headers_get r "Content-Type"))) "image/"
     = false)
  ∧ (PyStr.startswith
       (PyStr.lower (default "" (headers_get r "Content-Type"))) "image/"
     = false →
     ∀ urlparse http url w,
       http (requests_made (trace w)) url = Responded r →
       download_image urlparse http url w
       = (log [EvGet url;
               EvPrint (SkippingUrl url
                          "Invalid file type. Only image files are allowed.")]
              w, Ok tt)
       ∧ fs (download_image urlparse http url w).1 = fs w).
Proof.
  intros Hs. split; [apply validate_invalid_type|].
  intros Hct urlparse http url w Hh.
  apply validate_invalid_type in Hct.
  rewrite (download_rejected _ _ _ _ _ _ Hh Hs Hct). split; reflexivity.
Qed.

Lemma C2_witness :
  raise_for_status html_page = Ok tt
  ∧ validate_response_headers html_page = Raise invalid_file_type
  ∧ fs (download_image UrlLib.urlparse sample_http
          "http://example.com/page" world_with_cat).1
    = fs world_with_cat.
Proof.
  split; [reflexivity|].
  destruct (C2_content_type html_page eq_refl) as [Hiff Hrun].
  split; [apply Hiff; vm_compute; reflexivity|].
  apply Hrun; vm_compute; reflexivity.
Defined.

(** C2 as stated fails in one direction: a validation error does not imply
    a bad Content-Type.  A response declared [image/png] with a
    Content-Length of 11000000 has a successful status and a type that
    starts with [image/], and the validator raises a [ValueError] for it
    (the too-large one). *)
Lemma C2_counterexample :
  ¬ (∀ r, raise_for_status r = Ok tt →
          ((∃ msg, validate_response_headers r = Raise (ValueError msg))
           ↔ PyStr.startswith
               (PyStr.lower (default "" (headers_get r "Content-Type")))
               "image/" = false)).
Proof.
  intros H.
  destruct (H huge_png eq_refl) as [Hforth _].
  assert (Hbad : PyStr.startswith
                   (PyStr.lower (default "" (headers_get huge_png "Content-Type")))
                   "image/" = false).
  { apply Hforth. eexists. vm_compute. reflexivity. }
  vm_compute in Hbad. discriminate Hbad.
Qed.

(** C10.  A response without any Content-Type header has the empty string
    as its declared type, so the Safety Validator raises the
    invalid-file-type [ValueError]; when the status was successful
    [download_image] reports the URL with the skip line of the validation
    clause and leaves the disk as it was. *)
Theorem C10_missing_content_type (r : Response) :
  headers_get r "Content-Type" = None →
  declared_content_type r = ""
  ∧ validate_response_headers r = Raise invalid_file_type
  ∧ ∀ urlparse http url w,
      http (requests_made (trace w)) url = Responded r →
      raise_for_status r = Ok tt →
      download_image urlparse http url w
      = (log [EvGet url;
              EvPrint (SkippingUrl url
                         "Invalid file type. Only image files are allowed.")]
             w, Ok tt)
      ∧ fs (download_image urlparse http url w).1 = fs w.
Proof.
  intros Hct.
  assert (Hd : declared_content_type r = "").
  { unfold declared_content_type. now rewrite Hct. }
  assert (Hv : validate_response_headers r = Raise invalid_file_type).
  { apply validate_invalid_type. now rewrite Hd. }
  split; [exact Hd|]. split; [exact Hv|].
  intros urlparse http url w Hh Hs.
  rewrite (download_rejected _ _ _ _ _ _ Hh Hs Hv). split; reflexivity.
Qed.

Lemma C10_witness :
  headers_get untyped "Content-Type" = None
  ∧ validate_response_headers untyped = Raise invalid_file_type
  ∧ download_image UrlLib.urlparse sample_http "http://example.com/raw"
      empty_world
    = (log [EvGet "http://example.com/raw";
            EvPrint (SkippingUrl "http://example.com/raw"
                       "Invalid file type. Only image files are allowed.")]
           empty_world, Ok tt).
Proof.
  assert (H : headers_get untyped "Content-Type" = None)
    by (vm_compute; reflexivity).
  split; [exact H|].
  destruct (C10_missing_content_type untyped H) as (_ & Hv & Hrun).
  split; [exact Hv|].
  apply Hrun; vm_compute; reflexivity.
Defined.

(** C3, as the code has it.  The size check comes second: for a response
    whose declared type passed the image check and that carries a
    Content-Length header, the validator raises the too-large [ValueError]
    exactly when the header value is not empty, [int] accepts it and its
    integer value exceeds 10 * 1024 * 1024.  Without the header the
    validator never raises the too-large error, and it succeeds when the
    declared type passed. *)
Theorem C3_content_length (r : Response) :
  (PyStr.startswith (declared_content_type r) "image/" = true →
   ∀ v, headers_get r "Content-Length" = Some v →
        (validate_response_headers r = Raise file_too_large
         ↔ v ≠ "" ∧ ∃ n, PyInt.int v = Ok n ∧ 10 * 1024 * 1024 < n))
  ∧ (headers_get r "Content-Length" = None →
     validate_response_headers r ≠ Raise file_too_large
     ∧ (PyStr.startswith (declared_content_type r) "image/" = true →
        validate_response_headers r = Ok tt)).
Proof.
  split.
  - intros Ht v Hv. rewrite (validate_too_large r Ht). split.
    + intros (v' & n & Hv' & Hne & Hi & Hn). simplify_eq. eauto.
    + intros (Hne & n & Hi & Hn). exists v, n. auto.
  - intros Hn. rewrite validate_unfold, Hn. split.
    + destruct (negb _); [|discriminate].
      unfold invalid_file_type, file_too_large. discriminate.
    + intros ->. reflexivity.
Qed.

Lemma C3_witness :
  PyStr.startswith (declared_content_type huge_png) "image/" = true
  ∧ headers_get huge_png "Content-Length" = Some "11000000"
  ∧ validate_response_headers huge_png = Raise file_too_large.
Proof.
  assert (Ht : PyStr.startswith (declared_content_type huge_png) "image/" = true)
    by (vm_compute; reflexivity).
  assert (Hv : headers_get huge_png "Content-Length" = Some "11000000")
    by (vm_compute; reflexivity).
  split; [exact Ht|]. split; [exact Hv|].
  apply (proj1 (C3_content_length huge_png) Ht "11000000" Hv).
  split; [discriminate|]. exists 11000000. split; [vm_compute; reflexivity|lia].
Defined.

(** C3 as stated fails: a page declared [text/html] with a Content-Length of
    11000000 carries a header whose integer value exceeds the cap, and the
    validator does not raise the too-large error for it (it raises the
    invalid-file-type error first). *)
Lemma C3_counterexample :
  ¬ (∀ r v n,
       headers_get r "Content-Length" = Some v →
       PyInt.int v = Ok n →
       (validate_response_headers r = Raise file_too_large
        ↔ 10 * 1024 * 1024 < n)).
Proof.
  intros H.
  assert (Hv : headers_get html_page "Content-Length" = Some "11000000")
    by (vm_compute; reflexivity).
  assert (Hi : PyInt.int "11000000" = Ok 11000000)
    by (vm_compute; reflexivity).
  destruct (H html_page "11000000" 11000000 Hv Hi) as [_ Hback].
  assert (Hbad : validate_response_headers html_page = Raise file_too_large)
    by (apply Hback; lia).
  vm_compute in Hbad. discriminate Hbad.
Qed.

(** ** Existing files *)

Lemma exists_of_file f p data :
  files f !! p = Some data → path_exists f p = true.
Proof.
  intros H. unfold path_exists. rewrite H.
  rewrite (bool_decide_true (is_Some (Some data))) by eauto.
  apply orb_true_r.
Qed.

Lemma download_image_keeps urlparse http url w p data :
  files (fs w) !! p = Some data →
  files (fs (download_image urlparse http url w).1) !! p = Some data.
Proof.
  intros Hp.
  destruct (download_image_cases urlparse http url w)
    as (w' & delta & Hrun & _ & _ & Hcase).
  rewrite Hrun. cbn [fst].
  destruct Hcase as [[Hfs _]|(r & f & _ & Hex & [_ Hfr])].
  - now rewrite Hfs.
  - rewrite Hfr; [exact Hp|].
    intros ->. apply exists_of_file in Hp. congruence.
Qed.

Lemma for_each_keeps urlparse http urls w p data :
  files (fs w) !! p = Some data →
  files (fs (for_each urls (download_image urlparse http) w).1) !! p
  = Some data.
Proof.
  revert w. induction urls as [|url urls IH]; intros w Hp; [exact Hp|].
  cbn [for_each]. rewrite bind_run.
  pose proof (download_image_keeps urlparse http url w p data Hp) as Hk.
  destruct (download_image_cases urlparse http url w) as (w1 & _ & Hrun & _).
  rewrite Hrun in Hk |- *. now apply IH.
Qed.

(** C1.  When the Destination Path names an existing entry, the Persister
    does nothing but print the duplicate line and returns normally, whatever
    the response holds.  For a URL that resolves to such a path,
    [download_image] leaves the disk as it was and logs no open and no
    write; the line it prints is the duplicate line whenever the fetch and
    the validation went through.  And whatever the URLs, a file that exists
    before [download_image], or before the loop over a list of URLs, has
    the same content after it. *)
Theorem C1_duplicate_skip (filename filepath : string) (w : World) :
  path_exists (fs w) filepath = true →
  (∀ response,
     persist response filename filepath w
     = (log [EvPrint (SkippingDuplicate filename)] w, Ok tt))
  ∧ (∀ urlparse http url,
       get_filename_from_url urlparse url = Ok filename →
       OsPath.join SAVE_DIR filename = filepath →
       ∃ l, download_image urlparse http url w
            = (log [EvGet url; EvPrint l] w, Ok tt)
            ∧ ∀ response,
                http (requests_made (trace w)) url = Responded response →
                raise_for_status response = Ok tt →
                validate_response_headers response = Ok tt →
                l = SkippingDuplicate filename)
  ∧ (∀ urlparse http url p data,
       files (fs w) !! p = Some data →
       files (fs (download_image urlparse http url w).1) !! p = Some data)
  ∧ (∀ urlparse http urls p data,
       files (fs w) !! p = Some data →
       files (fs (for_each urls (download_image urlparse http) w).1) !! p
       = Some data).
Proof.
  intros Hex. split; [|split; [|split]].
  - intros response. now apply persist_duplicate.
  - intros urlparse http url Hf <-.
    rewrite download_image_admission. unfold admission. rewrite Hf.
    destruct (http (requests_made (trace w)) url) as [r|e].
    + destruct (raise_for_status r) as [[]|e] eqn:Hs; cbn.
      * destruct (validate_response_headers r) as [[]|e] eqn:Hv; cbn.
        -- unfold try_except. rewrite persist_duplicate by exact Hex.
           rewrite log_log. eexists. split; [reflexivity|]. reflexivity.
        -- eexists. split; [reflexivity|]. intros r' [= <-] _ H. congruence.
      * eexists. split; [reflexivity|]. intros r' [= <-] H. congruence.
    + eexists. split; [reflexivity|]. intros r' [=].
  - intros urlparse http url p data. apply download_image_keeps.
  - intros urlparse http urls p data. apply for_each_keeps.
Qed.

Lemma C1_witness :
  path_exists (fs world_with_cat) "Fetched_Images/cat.jpg" = true
  ∧ download_image UrlLib.urlparse sample_http "http://example.com/cat.jpg"
      world_with_cat
    = (log [EvGet "http://example.com/cat.jpg";
            EvPrint (SkippingDuplicate "cat.jpg")] world_with_cat, Ok tt).
Proof.
  assert (Hex : path_exists (fs world_with_cat) "Fetched_Images/cat.jpg" = true)
    by (vm_compute; reflexivity).
  split; [exact Hex|].
  destruct (C1_duplicate_skip "cat.jpg" _ world_with_cat Hex) as (_ & Hrun & _).
  destruct (Hrun UrlLib.urlparse sample_http "http://example.com/cat.jpg")
    as (l & -> & Hl); [vm_compute; reflexivity..|].
  now rewrite (Hl small_jpeg) by (vm_compute; reflexivity).
Defined.

(** C6.  When no URL is left after parsing, [main] prints the two banner
    lines, reads the input, prints the no-valid-URLs line and returns: no
    request is made, the directory is not created, the disk is as it was. *)
Theorem C6_empty_input urlparse http (urls_input : string) (w : World) :
  collect_urls urls_input = [] →
  main urlparse http urls_input w
  = (log [EvPrint Welcome; EvPrint Tagline; EvInput; EvPrint NoValidUrls] w,
     Ok tt)
  ∧ fs (main urlparse http urls_input w).1 = fs w
  ∧ requested (trace (main urlparse http urls_input w).1)
    = requested (trace w).
Proof.
  intros Hu.
  assert (Hm : main urlparse http urls_input w
               = (log [EvPrint Welcome; EvPrint Tagline; EvInput;
                       EvPrint NoValidUrls] w, Ok tt)).
  { unfold main. rewrite Hu.
    rewrite (bool_decide_false (@nil string ≠ [])) by (intros H; now apply H).
    cbn [negb]. io_red. unfold log. cbn [fs trace].
    rewrite <- !app_assoc. reflexivity. }
  rewrite Hm. split; [reflexivity|]. split; [reflexivity|].
  cbn. rewrite requested_app. cbn. now rewrite app_nil_r.
Qed.

Lemma C6_witness :
  collect_urls " , ,," = []
  ∧ main UrlLib.urlparse sample_http " , ,," empty_world
    = (log [EvPrint Welcome; EvPrint Tagline; EvInput; EvPrint NoValidUrls]
           empty_world, Ok tt).
Proof.
  assert (H : collect_urls " , ,," = []) by reflexivity.
  split; [exact H|].
  exact (proj1 (C6_empty_input UrlLib.urlparse sample_http _ empty_world H)).
Defined.

(** ** Destination Resolver *)

Lemma take_drop n s : PyStr.take n s +:+ PyStr.drop n s = s.
Proof.
  revert s. induction n as [|n IH]; intros [|c s]; try reflexivity.
  cbn [PyStr.take PyStr.drop]. rewrite app_cons, IH. reflexivity.
Qed.

Lemma drop_after_last_free c s :
  PyStr.contains c (PyStr.drop (PyStr.after_last c s) s) = false.
Proof.
  induction s as [|d s IH]; [reflexivity|].
  cbn [PyStr.after_last].
  destruct (PyStr.after_last c s) as [|k].
  - cbn [PyStr.drop] in IH. destruct (Ascii.eqb d c) eqn:E.
    + exact IH.
    + cbn [PyStr.drop PyStr.contains]. now rewrite E, IH.
  - exact IH.
Qed.

Lemma take_after_last_end c s :
  PyStr.take (PyStr.after_last c s) s = ""
  ∨ PyStr.last (PyStr.take (PyStr.after_last c s) s) = Some c.
Proof.
  induction s as [|d s IH]; [now left|].
  cbn [PyStr.after_last].
  destruct (PyStr.after_last c s) as [|k] eqn:Ek.
  - destruct (Ascii.eqb d c) eqn:E; [|now left].
    apply Ascii.eqb_eq in E. subst d. now right.
  - right. destruct s as [|e s]; [discriminate Ek|].
    destruct IH as [IH|IH]; [discriminate IH|].
    cbn [PyStr.take] in *. exact IH.
Qed.

Lemma basename_final_segment p : final_segment p (OsPath.basename p).
Proof.
  exists (PyStr.take (PyStr.after_last OsPath.sep p) p).
  split; [symmetry; apply take_drop|].
  split; [apply take_after_last_end|apply drop_after_last_free].
Qed.

Lemma join_save_dir f :
  PyStr.contains "/" f = false →
  OsPath.join SAVE_DIR f = "Fetched_Images/" +:+ f.
Proof.
  intros Hf. unfold OsPath.join, PyStr.startswith.
  destruct f as [|c f]; [reflexivity|].
  cbn in Hf. apply orb_false_elim in Hf as [Hc _].
  apply Ascii.eqb_neq in Hc.
  cbn [String.prefix].
  destruct (ascii_dec "/" c) as [E|_]; [elim Hc; now symmetry|].
  reflexivity.
Qed.

Lemma contains_app c s t :
  PyStr.contains c (s +:+ t) = PyStr.contains c s || PyStr.contains c t.
Proof.
  induction s as [|d s IH]; [reflexivity|].
  rewrite app_cons. cbn [PyStr.contains]. now rewrite IH, orb_assoc.
Qed.

Lemma length_app s t :
  String.length (s +:+ t) = (String.length s + String.length t)%nat.
Proof.
  induction s as [|d s IH]; [reflexivity|].
  rewrite app_cons. cbn [String.length]. now rewrite IH.
Qed.

Lemma hex_digit_is_hex n : is_hex (Hashlib.hex_digit n) = true.
Proof.
  unfold Hashlib.hex_digit. generalize (Z.to_nat (Z.land n 15)). intros k.
  do 16 (destruct k as [|k]; [reflexivity|]). destruct k; reflexivity.
Qed.

Lemma hex_all_hex l : PyStr.all is_hex (Hashlib.hex l) = true.
Proof.
  induction l as [|b l IH]; [reflexivity|].
  cbn [Hashlib.hex PyStr.all]. now rewrite !hex_digit_is_hex, IH.
Qed.

Lemma hex_length l : String.length (Hashlib.hex l) = (2 * length l)%nat.
Proof.
  induction l as [|b l IH]; [reflexivity|].
  cbn [Hashlib.hex String.length length]. rewrite IH. lia.
Qed.

Lemma md5_hexdigest_length data :
  String.length (Hashlib.md5_hexdigest data) = 32%nat.
Proof. unfold Hashlib.md5_hexdigest. rewrite hex_length. reflexivity. Qed.

Lemma all_hex_free s : PyStr.all is_hex s = true → PyStr.contains "/" s = false.
Proof.
  induction s as [|c s IH]; [reflexivity|].
  cbn [PyStr.all PyStr.contains]. intros [Hc Hs]%andb_true_iff.
  rewrite (IH Hs), orb_false_r. apply Ascii.eqb_neq. intros ->. discriminate Hc.
Qed.

Lemma endswith_app s t : PyStr.endswith (s +:+ t) t = true.
Proof.
  unfold PyStr.endswith. rewrite length_app.
  apply andb_true_iff. split; [apply Nat.leb_le; lia|].
  replace (String.length s + String.length t - String.length t)%nat
    with (String.length s) by lia.
  apply String.eqb_eq.
  induction s as [|c s IH].
  - cbn [String.length]. rewrite app_empty_l.
    induction t as [|d t IHt]; [reflexivity|]. cbn. now rewrite IHt.
  - rewrite app_cons. cbn [String.length substring]. exact IH.
Qed.

Lemma after_last_zero c s :
  PyStr.after_last c s = 0%nat ↔ PyStr.contains c s = false.
Proof.
  induction s as [|d s IH]; [easy|].
  cbn [PyStr.after_last PyStr.contains].
  destruct (PyStr.after_last c s) as [|k].
  - rewrite (proj1 IH eq_refl), orb_false_r.
    destruct (Ascii.eqb d c); easy.
  - destruct (PyStr.contains c s); [|now destruct IH as [_ IH]; discriminate IH].
    rewrite orb_true_r. easy.
Qed.

Lemma contains_last c h : PyStr.last h = Some c → PyStr.contains c h = true.
Proof.
  induction h as [|d h IH]; [discriminate|].
  cbn [PyStr.contains]. destruct h as [|e h].
  - cbn. intros [= ->]. now rewrite Ascii.eqb_refl.
  - intros H. rewrite IH by exact H. apply orb_true_r.
Qed.

(** The final segment is unique, and [os.path.basename] computes it. *)
Lemma final_segment_basename p f : final_segment p f ↔ f = OsPath.basename p.
Proof.
  split; [|intros ->; apply basename_final_segment].
  intros (head & -> & Hhead & Hf). unfold OsPath.basename.
  induction head as [|d h IH].
  - rewrite app_empty_l.
    now rewrite (proj2 (after_last_zero OsPath.sep f) Hf).
  - destruct Hhead as [Hhead|Hhead]; [discriminate Hhead|].
    rewrite app_cons. cbn [PyStr.after_last].
    destruct h as [|e h].
    + cbn in Hhead. injection Hhead as ->. rewrite app_empty_l.
      rewrite (proj2 (after_last_zero OsPath.sep f) Hf). reflexivity.
    + assert (Hl : PyStr.last (String e h) = Some OsPath.sep) by exact Hhead.
      specialize (IH (or_intror Hl)).
      destruct (PyStr.after_last OsPath.sep (String e h +:+ f)) as [|k] eqn:Ek.
      * apply after_last_zero in Ek. rewrite contains_app in Ek.
        rewrite (contains_last _ _ Hl) in Ek. discriminate Ek.
      * exact IH.
Qed.

Lemma get_filename_named urlparse url parsed :
  urlparse url = Ok parsed →
  OsPath.basename (path parsed) ≠ "" →
  get_filename_from_url urlparse url = Ok (OsPath.basename (path parsed)).
Proof.
  intros Hp Hne. unfold get_filename_from_url. rewrite Hp. cbn.
  destruct (OsPath.basename (path parsed)); [congruence|reflexivity].
Qed.

Lemma get_filename_hashed urlparse url parsed :
  urlparse url = Ok parsed →
  OsPath.basename (path parsed) = "" →
  get_filename_from_url urlparse url
  = Ok (Hashlib.md5_hexdigest (Hashlib.encode url) +:+ ".jpg").
Proof.
  intros Hp He. unfold get_filename_from_url. rewrite Hp. cbn.
  rewrite He. reflexivity.
Qed.

Lemma download_admitted urlparse http url w response filename :
  http (requests_made (trace w)) url = Responded response →
  raise_for_status response = Ok tt →
  validate_response_headers response = Ok tt →
  get_filename_from_url urlparse url = Ok filename →
  download_image urlparse http url w
  = try_except (persist response filename (OsPath.join SAVE_DIR filename))
      (report url) (log [EvGet url] w).
Proof.
  intros Hh Hs Hv Hf. rewrite download_image_admission. unfold admission.
  rewrite Hh, Hs. cbn. rewrite Hv. cbn. rewrite Hf. reflexivity.
Qed.

(** C7.  When the path component of the URL, as [urlparse] gives it, has a
    non-empty final segment, the Destination Resolver returns exactly that
    segment, the Destination Path is [Fetched_Images/] followed by it, and
    that path is what [download_image] hands to the Persister. *)
Theorem C7_filename_from_path urlparse (url : string) (parsed : ParseResult)
    (segment : string) :
  urlparse url = Ok parsed →
  final_segment (path parsed) segment →
  segment ≠ "" →
  get_filename_from_url urlparse url = Ok segment
  ∧ OsPath.join SAVE_DIR segment = "Fetched_Images/" +:+ segment
  ∧ ∀ http w response,
      http (requests_made (trace w)) url = Responded response →
      raise_for_status response = Ok tt →
      validate_response_headers response = Ok tt →
      download_image urlparse http url w
      = try_except
          (persist response segment ("Fetched_Images/" +:+ segment))
          (report url) (log [EvGet url] w).
Proof.
  intros Hp Hseg Hne.
  pose proof Hseg as (_ & _ & _ & Hfree).
  apply final_segment_basename in Hseg. subst segment.
  pose proof (get_filename_named urlparse url parsed Hp Hne) as Hf.
  pose proof (join_save_dir _ Hfree) as Hj.
  split; [exact Hf|]. split; [exact Hj|].
  intros http w response Hh Hs Hv. rewrite <- Hj.
  now apply download_admitted.
Qed.

Lemma C7_witness :
  get_filename_from_url UrlLib.urlparse
    "http://example.com/images/cat.jpg?size=2"
  = Ok "cat.jpg"
  ∧ OsPath.join SAVE_DIR "cat.jpg" = "Fetched_Images/cat.jpg".
Proof.
  assert (Hp : UrlLib.urlparse "http://example.com/images/cat.jpg?size=2"
               = Ok {| scheme := "http"; netloc := "example.com";
                       path := "/images/cat.jpg"; params := "";
                       query := "size=2"; fragment := "" |})
    by (vm_compute; reflexivity).
  assert (Hseg : final_segment "/images/cat.jpg" "cat.jpg")
    by (exists "/images/"; repeat split; now right).
  assert (Hne : "cat.jpg" ≠ "") by discriminate.
  destruct (C7_filename_from_path UrlLib.urlparse _ _ _ Hp Hseg Hne)
    as (Hf & Hj & _).
  split; [exact Hf|exact Hj].
Defined.

(** C8.  When the final segment of the path is empty, the Destination
    Resolver returns the MD5 hex digest of the UTF-8 encoded URL, 32
    lower-case hexadecimal digits, followed by [.jpg].  The name ends with
    [.jpg], it and the Destination Path [Fetched_Images/<name>] are not
    empty, and the name depends on the URL string alone: any parse of the
    same URL with an empty final segment gives the same name. *)
Theorem C8_fallback_filename urlparse (url : string) (parsed : ParseResult) :
  urlparse url = Ok parsed →
  final_segment (path parsed) "" →
  let digest := Hashlib.md5_hexdigest (Hashlib.encode url) in
  let filename := digest +:+ ".jpg" in
  get_filename_from_url urlparse url = Ok filename
  ∧ String.length digest = 32%nat
  ∧ PyStr.all is_hex digest = true
  ∧ PyStr.endswith filename ".jpg" = true
  ∧ filename ≠ ""
  ∧ OsPath.join SAVE_DIR filename = "Fetched_Images/" +:+ filename
  ∧ OsPath.join SAVE_DIR filename ≠ ""
  ∧ ∀ urlparse' parsed',
      urlparse' url = Ok parsed' →
      final_segment (path parsed') "" →
      get_filename_from_url urlparse' url = Ok filename.
Proof.
  intros Hp Hseg digest filename.
  apply final_segment_basename in Hseg. symmetry in Hseg.
  assert (Hhex : PyStr.all is_hex digest = true) by apply hex_all_hex.
  assert (Hj : OsPath.join SAVE_DIR filename = "Fetched_Images/" +:+ filename).
  { apply join_save_dir. unfold filename. rewrite contains_app.
    now rewrite (all_hex_free _ Hhex). }
  split; [now apply (get_filename_hashed urlparse url parsed)|].
  split; [apply md5_hexdigest_length|]. split; [exact Hhex|].
  split; [apply endswith_app|].
  split.
  { intros H. apply (f_equal String.length) in H.
    unfold filename in H. rewrite length_app in H. cbn in H. lia. }
  split; [exact Hj|]. split; [rewrite Hj; discriminate|].
  intros urlparse' parsed' Hp' Hseg'.
  apply final_segment_basename in Hseg'. symmetry in Hseg'.
  now apply (get_filename_hashed urlparse' url parsed').
Qed.

Lemma C8_witness :
  get_filename_from_url UrlLib.urlparse "http://example.com/"
  = Ok "a6bf1757fff057f266b697df9cf176fd.jpg"
  ∧ OsPath.join SAVE_DIR "a6bf1757fff057f266b697df9cf176fd.jpg"
    = "Fetched_Images/a6bf1757fff057f266b697df9cf176fd.jpg".
Proof.
  assert (Hp : UrlLib.urlparse "http://example.com/"
               = Ok {| scheme := "http"; netloc := "example.com";
                       path := "/"; params := ""; query := "";
                       fragment := "" |})
    by (vm_compute; reflexivity).
  assert (Hseg : final_segment "/" "")
    by (exists "/"; repeat split; now right).
  destruct (C8_fallback_filename UrlLib.urlparse _ _ Hp Hseg)
    as (Hf & _ & _ & _ & _ & Hj & _).
  assert (Hd : Hashlib.md5_hexdigest (Hashlib.encode "http://example.com/")
               = "a6bf1757fff057f266b697df9cf176fd")
    by (vm_compute; reflexivity).
  rewrite Hd in Hf, Hj. split; [exact Hf|exact Hj].
Defined.

(** ** Order of validation and writing *)

(** C9.  Whenever one run of [download_image] logs an open or a write of
    a file, or leaves the disk different from what it was, the request of
    that run returned a response with a successful status on which the
    Safety Validator succeeded; and every event of the run comes after its
    request. *)
Theorem C9_write_after_validation urlparse http (url : string) (w : World)
    (delta : list event) :
  trace (download_image urlparse http url w).1 = trace w ++ delta →
  (∃ e, In e delta ∧ writes_file e = true)
  ∨ fs (download_image urlparse http url w).1 ≠ fs w →
  ∃ response rest,
    http (requests_made (trace w)) url = Responded response
    ∧ raise_for_status response = Ok tt
    ∧ validate_response_headers response = Ok tt
    ∧ delta = EvGet url :: rest.
Proof.
  destruct (download_image_cases urlparse http url w)
    as (w' & delta' & Hrun & Ht & _ & Hcase).
  rewrite Hrun. cbn [fst]. rewrite Ht. intros Hd%app_inv_head. subst delta.
  intros Hw.
  destruct Hcase as [[Hfs Hquiet]|(response & filename & Ha & _ & _)].
  - exfalso. destruct Hw as [(e & [<-|Hin] & He)|Hne].
    + discriminate He.
    + rewrite Forall_forall in Hquiet. specialize (Hquiet e).
      rewrite list_elem_of_In in Hquiet. rewrite (Hquiet Hin) in He.
      discriminate He.
    + now apply Hne.
  - apply admission_inv in Ha as (Hh & Hs & Hv & _).
    exists response, delta'. auto.
Qed.

Lemma C9_witness :
  ∃ response rest,
    sample_http 0 "http://example.com/cat.jpg" = Responded response
    ∧ raise_for_status response = Ok tt
    ∧ validate_response_headers response = Ok tt
    ∧ [EvGet "http://example.com/cat.jpg";
       EvOpen "Fetched_Images/cat.jpg";
       EvWrite "Fetched_Images/cat.jpg" jpeg_chunk;
       EvWrite "Fetched_Images/cat.jpg" jpeg_chunk;
       EvClose "Fetched_Images/cat.jpg";
       EvPrint (SuccessfullyFetched "cat.jpg");
       EvPrint (ImageSavedTo "Fetched_Images/cat.jpg")]
      = EvGet "http://example.com/cat.jpg" :: rest.
Proof.
  apply (C9_write_after_validation UrlLib.urlparse sample_http
           "http://example.com/cat.jpg"
           {| fs := {| dirs := {[SAVE_DIR]}; files := ∅ |}; trace := [] |}).
  - vm_compute. reflexivity.
  - left. exists (EvOpen "Fetched_Images/cat.jpg").
    split; [right; left; reflexivity|reflexivity].
Defined.

(** ** The whole run *)

Lemma requested_quiet e :
  (match e with EvGet _ => false | _ => true end) = true → requested [e] = [].
Proof. destruct e; easy. Qed.

Lemma download_image_returns urlparse http url w :
  ∃ w', download_image urlparse http url w = (w', Ok tt)
        ∧ requested (trace w') = requested (trace w) ++ [url].
Proof.
  destruct (download_image_cases urlparse http url w)
    as (w' & delta & Hrun & Ht & Hreq & _).
  exists w'. split; [exact Hrun|].
  rewrite Ht, requested_app.
  change (requested (EvGet url :: delta)) with (url :: requested delta).
  now rewrite Hreq.
Qed.

Lemma download_image_catches urlparse http url w w1 e :
  download_image_try urlparse http url w = (w1, Raise e) →
  download_image urlparse http url w
  = (log [EvPrint (report_line url e)] w1, Ok tt).
Proof.
  intros H. unfold download_image, try_except. rewrite H. apply report_run.
Qed.

Lemma for_each_download urlparse http urls w :
  ∃ w', for_each urls (download_image urlparse http) w = (w', Ok tt)
        ∧ requested (trace w') = requested (trace w) ++ urls.
Proof.
  revert w. induction urls as [|url urls IH]; intros w.
  - exists w. split; [reflexivity|]. now rewrite app_nil_r.
  - cbn [for_each]. rewrite bind_run.
    destruct (download_image_returns urlparse http url w) as (w1 & -> & Hr1).
    destruct (IH w1) as (w2 & -> & Hr2).
    exists w2. split; [reflexivity|].
    rewrite Hr2, Hr1, <- app_assoc. reflexivity.
Qed.

(** [os.makedirs] goes through unless the name is taken by something that
    is not a directory. *)
Lemma create_save_directory_run w :
  is_dir (fs w) SAVE_DIR = true ∨ path_exists (fs w) SAVE_DIR = false →
  ∃ w', create_save_directory w = (w', Ok tt)
        ∧ trace w' = trace w ++ [EvMakedirs SAVE_DIR]
        ∧ files (fs w') = files (fs w)
        ∧ is_dir (fs w') SAVE_DIR = true.
Proof.
  intros Hok. unfold create_save_directory, makedirs_exist_ok. io_red.
  destruct (is_dir (fs w) SAVE_DIR) eqn:Hd.
  - eexists. split; [reflexivity|]. split; [reflexivity|].
    split; [reflexivity|exact Hd].
  - destruct Hok as [Hok|Hok]; [discriminate Hok|]. rewrite Hok.
    eexists. split; [reflexivity|]. split; [reflexivity|].
    split; [reflexivity|]. unfold is_dir. cbn [fs dirs].
    rewrite bool_decide_true by set_solver. reflexivity.
Qed.

(** When a file has taken the directory's name, [main] stops at
    [os.makedirs] with its exception and no URL is fetched. *)
Lemma main_directory_name_taken urlparse http urls_input w :
  collect_urls urls_input ≠ [] →
  is_dir (fs w) SAVE_DIR = false →
  path_exists (fs w) SAVE_DIR = true →
  main urlparse http urls_input w
  = (log [EvPrint Welcome; EvPrint Tagline; EvInput; EvMakedirs SAVE_DIR] w,
     Raise (os_error "17" "File exists" SAVE_DIR)).
Proof.
  intros Hu Hd Hex. unfold main.
  rewrite (bool_decide_true _ Hu). cbn [negb].
  unfold create_save_directory, makedirs_exist_ok. io_red.
  rewrite Hd, Hex. unfold log. cbn [fs trace].
  rewrite <- !app_assoc. reflexivity.
Qed.

(** ** The run over a console that may refuse a line *)

Lemma console_utf8_print l : Console.print utf8_console l = print l.
Proof. reflexivity. Qed.

(** Over a console that takes every line the two models are one. *)
Lemma console_utf8_download urlparse http url w :
  Console.download_image utf8_console urlparse http url w
  = download_image urlparse http url w.
Proof.
  unfold Console.download_image, download_image, try_except.
  change (Console.download_image_try utf8_console urlparse http url w)
    with (download_image_try urlparse http url w).
  destruct (download_image_try urlparse http url w) as [w1 [[]|e]];
    [reflexivity|]. destruct e; reflexivity.
Qed.

Lemma console_utf8_for_each urlparse http urls w :
  for_each urls (Console.download_image utf8_console urlparse http) w
  = for_each urls (download_image urlparse http) w.
Proof.
  revert w. induction urls as [|url urls IH]; intros w; [reflexivity|].
  cbn [for_each]. rewrite !bind_run, console_utf8_download.
  destruct (download_image urlparse http url w) as [w1 [[]|e]];
    [apply IH|reflexivity].
Qed.

Lemma console_utf8_main urlparse http urls_input w :
  Console.main utf8_console urlparse http urls_input w
  = main urlparse http urls_input w.
Proof.
  unfold Console.main, main.
  destruct (negb (bool_decide (collect_urls urls_input ≠ []))); [reflexivity|].
  change (Console.print utf8_console) with print. io_red.
  match goal with
  | |- context [create_save_directory ?x] =>
      destruct (create_save_directory x) as [w1 [[]|e]]; [|reflexivity]
  end.
  rewrite console_utf8_for_each. reflexivity.
Qed.

Lemma quiet_ret {A} (a : A) : quiet (mret a).
Proof. intros w. exists []. split; [cbn; now rewrite app_nil_r|reflexivity]. Qed.

Lemma quiet_throw {A} (e : exn) : quiet (mthrow e : IO A).
Proof. intros w. exists []. split; [cbn; now rewrite app_nil_r|reflexivity]. Qed.

Lemma quiet_lift {A} (r : result A) : quiet (lift r).
Proof. intros w. exists []. split; [cbn; now rewrite app_nil_r|reflexivity]. Qed.

Lemma quiet_get_fs : quiet get_fs.
Proof. intros w. exists []. split; [cbn; now rewrite app_nil_r|reflexivity]. Qed.

Lemma quiet_update_fs f : quiet (update_fs f).
Proof. intros w. exists []. split; [cbn; now rewrite app_nil_r|reflexivity]. Qed.

Lemma quiet_emit e : requested [e] = [] → quiet (emit e).
Proof. intros H w. exists [e]. split; [reflexivity|exact H]. Qed.

Lemma quiet_bind {A B} (m : IO A) (f : A → IO B) :
  quiet m → (∀ a, quiet (f a)) → quiet (m ≫= f).
Proof.
  intros Hm Hf w. rewrite bind_run.
  destruct (Hm w) as (d1 & H1 & Hq1).
  destruct (m w) as [w1 [a|e]]; cbn [fst] in H1.
  - destruct (Hf a w1) as (d2 & H2 & Hq2). exists (d1 ++ d2).
    rewrite H2, H1, <- app_assoc, requested_app, Hq1, Hq2. auto.
  - exists d1. auto.
Qed.

Lemma quiet_finally {A} (body : IO A) (cleanup : IO unit) :
  quiet body → quiet cleanup → quiet (finally body cleanup).
Proof.
  intros Hb Hc w. unfold finally.
  destruct (Hb w) as (d1 & H1 & Hq1).
  destruct (body w) as [w1 r]; cbn [fst] in H1.
  destruct (Hc w1) as (d2 & H2 & Hq2). exists (d1 ++ d2).
  cbn [fst]. rewrite H2, H1, <- app_assoc, requested_app, Hq1, Hq2. auto.
Qed.

Lemma quiet_print console l : quiet (Console.print console l).
Proof.
  unfold Console.print. destruct (console l);
    [apply quiet_throw|now apply quiet_emit].
Qed.

Lemma quiet_write_chunks p chunks : quiet (write_chunks p chunks).
Proof.
  induction chunks as [|chunk chunks IH]; [apply quiet_ret|].
  cbn [write_chunks]. apply quiet_bind; [|intros _; exact IH].
  destruct (bytes_truthy chunk); [|apply quiet_ret].
  unfold f_write. apply quiet_bind; [now apply quiet_emit|].
  intros _. apply quiet_update_fs.
Qed.

Lemma quiet_open_wb p : quiet (open_wb p).
Proof.
  unfold open_wb. apply quiet_bind; [now apply quiet_emit|]. intros _.
  apply quiet_bind; [apply quiet_get_fs|]. intros f.
  destruct (open_error f p); [apply quiet_throw|apply quiet_update_fs].
Qed.

Lemma quiet_persist console response filename filepath :
  quiet (Console.persist console response filename filepath).
Proof.
  unfold Console.persist, file_already_exists.
  apply quiet_bind.
  { apply quiet_bind; [apply quiet_get_fs|intros f; apply quiet_ret]. }
  intros [|]; [apply quiet_print|].
  apply quiet_bind; [apply quiet_open_wb|]. intros _.
  apply quiet_bind.
  { apply quiet_finally; [|now apply quiet_emit].
    unfold stream_to. apply quiet_bind; [apply quiet_write_chunks|].
    intros _. destruct (content_error response);
      [apply quiet_throw|apply quiet_ret]. }
  intros _. apply quiet_bind; intros; apply quiet_print.
Qed.

Lemma requests_get_run http url w :
  requests_get http url w
  = (log [EvGet url] w,
     match http (requests_made (trace w)) url with
     | Responded r => Ok r
     | Failed e => Raise e
     end).
Proof.
  unfold requests_get. io_red.
  destruct (http (requests_made (trace w)) url); reflexivity.
Qed.

(** The [try] block makes its request first, and no other. *)
Lemma console_try_requests console urlparse http url w :
  ∃ delta,
    trace (Console.download_image_try console urlparse http url w).1
    = trace w ++ EvGet url :: delta
    ∧ requested delta = [].
Proof.
  unfold Console.download_image_try.
  rewrite bind_run, requests_get_run.
  destruct (http (requests_made (trace w)) url) as [r|e].
  - match goal with
    | |- context [trace (?m ?x).1] =>
        assert (Hq : quiet m); [|destruct (Hq x) as (d & Hd & Hr)]
    end.
    { apply quiet_bind; [apply quiet_lift|]. intros _.
      apply quiet_bind; [apply quiet_lift|]. intros _.
      apply quiet_bind; [apply quiet_lift|]. intros filename.
      apply quiet_persist. }
    exists d. rewrite Hd. unfold log. cbn [trace].
    rewrite <- app_assoc. auto.
  - exists []. auto.
Qed.

(** An exception of the [try] block whose report line the console takes
    ends as that line; one whose report line the console refuses is
    replaced by what [print] raises, which leaves [download_image]. *)
Lemma console_download_catches console urlparse http url w w1 e :
  Console.download_image_try console urlparse http url w = (w1, Raise e) →
  console (report_line url e) = None →
  Console.download_image console urlparse http url w
  = (log [EvPrint (report_line url e)] w1, Ok tt).
Proof.
  intros H Hc. unfold Console.download_image, try_except. rewrite H.
  destruct e; cbn in Hc |- *; unfold Console.print; rewrite Hc; reflexivity.
Qed.

Lemma console_download_escapes console urlparse http url w w1 e e' :
  Console.download_image_try console urlparse http url w = (w1, Raise e) →
  console (report_line url e) = Some e' →
  Console.download_image console urlparse http url w = (w1, Raise e').
Proof.
  intros H Hc. unfold Console.download_image, try_except. rewrite H.
  destruct e; cbn in Hc |- *; unfold Console.print; rewrite Hc; reflexivity.
Qed.

Lemma console_download_returns console urlparse http url w :
  (∀ w1 e,
     Console.download_image_try console urlparse http url w = (w1, Raise e) →
     console (report_line url e) = None) →
  ∃ w', Console.download_image console urlparse http url w = (w', Ok tt)
        ∧ requested (trace w') = requested (trace w) ++ [url].
Proof.
  intros Hc.
  destruct (console_try_requests console urlparse http url w)
    as (delta & Ht & Hq).
  destruct (Console.download_image_try console urlparse http url w)
    as [w1 [[]|e]] eqn:Htry; cbn [fst] in Ht.
  - exists w1. split.
    + unfold Console.download_image, try_except. now rewrite Htry.
    + rewrite Ht, requested_app.
      change (requested (EvGet url :: delta)) with (url :: requested delta).
      now rewrite Hq.
  - exists (log [EvPrint (report_line url e)] w1). split.
    + apply console_download_catches; [exact Htry|]. now apply (Hc w1).
    + unfold log. cbn [trace]. rewrite Ht, !requested_app.
      change (requested (EvGet url :: delta)) with (url :: requested delta).
      rewrite Hq. cbn. now rewrite app_nil_r.
Qed.

Lemma console_for_each console urlparse http urls w :
  (∀ url w0 w1 e,
     In url urls →
     Console.download_image_try console urlparse http url w0 = (w1, Raise e) →
     console (report_line url e) = None) →
  ∃ w', for_each urls (Console.download_image console urlparse http) w
        = (w', Ok tt)
        ∧ requested (trace w') = requested (trace w) ++ urls.
Proof.
  revert w. induction urls as [|url urls IH]; intros w Hc.
  - exists w. split; [reflexivity|]. now rewrite app_nil_r.
  - cbn [for_each]. rewrite bind_run.
    destruct (console_download_returns console urlparse http url w)
      as (w1 & -> & Hr1).
    { intros w1 e. apply Hc. now left. }
    destruct (IH w1) as (w2 & -> & Hr2).
    { intros u w0 w3 e Hin. apply Hc. now right. }
    exists w2. split; [reflexivity|].
    rewrite Hr2, Hr1, <- app_assoc. reflexivity.
Qed.

(** C4.  Over a console that may refuse a line: an exception raised
    inside the [try] block of [download_image], of any of the three
    classes, is caught, and when the console takes the report line it ends
    as that one line and [download_image] returns.  So when the console
    takes the report line of every exception the listed URLs raise, every
    listed URL returns after exactly one request, the loop over a non-empty
    list returns after having requested every URL once, in order, and
    [main], once its four fixed lines can be printed and the save directory
    is there or can be created, runs that loop and ends with the closing
    line. *)
Theorem C4_every_url_attempted console urlparse http
    (urls : list string) (w : World) :
  urls ≠ [] →
  (∀ url w0 w1 e,
     In url urls →
     Console.download_image_try console urlparse http url w0 = (w1, Raise e) →
     console (report_line url e) = None) →
  (∀ url w0 w1 e,
     In url urls →
     Console.download_image_try console urlparse http url w0 = (w1, Raise e) →
     Console.download_image console urlparse http url w0
     = (log [EvPrint (report_line url e)] w1, Ok tt))
  ∧ (∀ url w0,
       In url urls →
       ∃ w1, Console.download_image console urlparse http url w0 = (w1, Ok tt)
             ∧ requested (trace w1) = requested (trace w0) ++ [url])
  ∧ (∃ w', for_each urls (Console.download_image console urlparse http) w
           = (w', Ok tt)
           ∧ requested (trace w') = requested (trace w) ++ urls)
  ∧ (∀ urls_input,
       collect_urls urls_input = urls →
       console Welcome = None → console Tagline = None →
       console FetchingImages = None → console Closing = None →
       is_dir (fs w) SAVE_DIR = true ∨ path_exists (fs w) SAVE_DIR = false →
       ∃ w' t,
         Console.main console urlparse http urls_input w = (w', Ok tt)
         ∧ requested (trace w') = requested (trace w) ++ urls
         ∧ trace w' = t ++ [EvPrint Closing]).
Proof.
  intros Hne Hc.
  split.
  { intros url w0 w1 e Hin Htry.
    apply console_download_catches; [exact Htry|]. now apply (Hc url w0 w1). }
  split.
  { intros url w0 Hin. apply console_download_returns.
    intros w1 e. now apply Hc. }
  split; [now apply console_for_each|].
  intros urls_input Hu Hw Htag Hf Hcl Hdir. subst urls.
  unfold Console.main, Console.print.
  rewrite Hw, Htag, Hf, Hcl, (bool_decide_true _ Hne). cbn [negb]. io_red.
  match goal with
  | |- context [create_save_directory ?x] =>
      destruct (create_save_directory_run x) as (w1 & Hcr & Ht1 & _);
      [exact Hdir|rewrite Hcr]
  end.
  match goal with
  | |- context [for_each ?l ?f ?x] =>
      destruct (console_for_each console urlparse http l x Hc)
        as (w2 & Hfe & Hr2);
      rewrite Hfe
  end.
  eexists _, _. split; [reflexivity|]. split; [|reflexivity].
  cbn [fs trace] in *. rewrite requested_app, Hr2, requested_app, Ht1.
  rewrite !requested_app, !requested_quiet by reflexivity.
  now rewrite !app_nil_r.
Qed.

Lemma C4_witness :
  ∃ w', for_each ["http://down.example/a.png"; "http://example.com/page";
                  "http://example.com/cat.jpg"]
          (Console.download_image utf8_console UrlLib.urlparse sample_http)
          empty_world
        = (w', Ok tt)
        ∧ requested (trace w')
          = requested (trace empty_world)
            ++ ["http://down.example/a.png"; "http://example.com/page";
                "http://example.com/cat.jpg"].
Proof.
  refine (proj1 (proj2 (proj2
    (C4_every_url_attempted utf8_console UrlLib.urlparse sample_http
       _ empty_world _ _)))).
  - discriminate.
  - reflexivity.
Defined.

(** On an ASCII terminal the report line of the first URL cannot be
    printed: what [print] raises in the [except] clause leaves
    [download_image] and the loop, and the second URL is never requested. *)
Lemma C4_counterexample :
  ¬ (∀ console urlparse http (urls : list string) (w : World),
       urls ≠ [] →
       ∃ w', for_each urls (Console.download_image console urlparse http) w
             = (w', Ok tt)
             ∧ requested (trace w') = requested (trace w) ++ urls).
Proof.
  intros H.
  destruct (H ascii_console UrlLib.urlparse sample_http
              ["http://down.example/a.png"; "http://example.com/cat.jpg"]
              empty_world) as (w' & Hrun & _); [discriminate|].
  vm_compute in Hrun. discriminate Hrun.
Qed.

(** The same run of [main]: the banner lines are ASCII and go through,
    the first URL times out, and the run ends with the exception of the
    [print] in the [except] clause. *)
Example scenario_ascii_console :
  let run := Console.main ascii_console UrlLib.urlparse sample_http
               "http://down.example/a.png, http://example.com/cat.jpg"
               empty_world in
  run.2
  = Raise (ValueError "'ascii' codec can't encode character '\u2717' in position 0: ordinal not in range(128)")
  ∧ trace run.1
    = [EvPrint Welcome; EvPrint Tagline; EvInput; EvMakedirs "Fetched_Images";
       EvPrint FetchingImages; EvGet "http://down.example/a.png"]
  ∧ map_to_list (files (fs run.1)) = [].
Proof. vm_compute. repeat split. Qed.

(** ** The scenarios of the specification, run on the model *)

(** The same image twice: the first attempt writes [cat.jpg], the second
    is skipped as a duplicate, and the directory ends with that one file. *)
Example scenario_duplicate :
  let run := main UrlLib.urlparse sample_http
               "http://example.com/cat.jpg, http://example.com/cat.jpg"
               empty_world in
  run.2 = Ok tt
  ∧ trace run.1
    = [EvPrint Welcome; EvPrint Tagline; EvInput; EvMakedirs "Fetched_Images";
       EvPrint FetchingImages;
       EvGet "http://example.com/cat.jpg";
       EvOpen "Fetched_Images/cat.jpg";
       EvWrite "Fetched_Images/cat.jpg" jpeg_chunk;
       EvWrite "Fetched_Images/cat.jpg" jpeg_chunk;
       EvClose "Fetched_Images/cat.jpg";
       EvPrint (SuccessfullyFetched "cat.jpg");
       EvPrint (ImageSavedTo "Fetched_Images/cat.jpg");
       EvGet "http://example.com/cat.jpg";
       EvPrint (SkippingDuplicate "cat.jpg");
       EvPrint Closing]
  ∧ map_to_list (files (fs run.1))
    = [("Fetched_Images/cat.jpg", jpeg_chunk ++ jpeg_chunk)]
  ∧ elements (dirs (fs run.1)) = ["Fetched_Images"].
Proof. vm_compute. repeat split. Qed.

(** The empty line: the no-valid-URLs report, and no directory. *)
Example scenario_empty_input :
  main UrlLib.urlparse sample_http "" empty_world
  = (log [EvPrint Welcome; EvPrint Tagline; EvInput; EvPrint NoValidUrls]
         empty_world, Ok tt).
Proof. vm_compute. reflexivity. Qed.

(** A URL without a file name: the file gets the hash-derived name. *)
Example scenario_root_url :
  let run := main UrlLib.urlparse sample_http "http://example.com/"
               empty_world in
  run.2 = Ok tt
  ∧ map_to_list (files (fs run.1))
    = [("Fetched_Images/a6bf1757fff057f266b697df9cf176fd.jpg", jpeg_chunk)].
Proof. vm_compute. repeat split. Qed.

(** One failure of each class does not stop the run. *)
Example scenario_mixed_outcomes :
  let run := main UrlLib.urlparse sample_http
               "http://down.example/a.png, http://example.com/huge.png,http://example.com/cat.jpg"
               world_with_cat in
  run.2 = Ok tt
  ∧ trace run.1
    = [EvPrint Welcome; EvPrint Tagline; EvInput; EvMakedirs "Fetched_Images";
       EvPrint FetchingImages;
       EvGet "http://down.example/a.png";
       EvPrint (ConnectionErrorFor "http://down.example/a.png"
                  "Connection timed out");
       EvGet "http://example.com/huge.png";
       EvPrint (SkippingUrl "http://example.com/huge.png"
                  "File is too large (limit is 10MB).");
       EvGet "http://example.com/cat.jpg";
       EvPrint (SkippingDuplicate "cat.jpg");
       EvPrint Closing].
Proof. vm_compute. repeat split. Qed.
(** * Further properties of the code *)

(** ** Input Collector: what [main] iterates over *)

Lemma contains_strip c p :
  PyStr.contains c (PyStr.strip p) = true → PyStr.contains c p = true.
Proof.
  destruct (strip_decompose p) as (l & r & Hp & _).
  intros H. rewrite Hp, !contains_app, H. now rewrite orb_true_r.
Qed.

Lemma lstrip_fixed u :
  (∀ c, PyStr.head u = Some c → PyStr.isspace c = false) → PyStr.lstrip u = u.
Proof.
  destruct u as [|c u]; [reflexivity|]. intros H. cbn [PyStr.lstrip].
  now rewrite (H c eq_refl).
Qed.

Lemma rstrip_fixed u :
  (∀ c, PyStr.last u = Some c → PyStr.isspace c = false) → PyStr.rstrip u = u.
Proof.
  induction u as [|c u IH]; [reflexivity|]. intros H. cbn [PyStr.rstrip].
  destruct u as [|d u].
  - cbn [PyStr.rstrip]. now rewrite (H c eq_refl).
  - rewrite IH by (intros e He; apply H; exact He). reflexivity.
Qed.

Lemma strip_fixed u :
  (∀ c, PyStr.head u = Some c → PyStr.isspace c = false) →
  (∀ c, PyStr.last u = Some c → PyStr.isspace c = false) →
  PyStr.strip u = u.
Proof.
  intros Hh Hl. unfold PyStr.strip. rewrite (lstrip_fixed u Hh).
  now apply rstrip_fixed.
Qed.

Lemma collect_urls_clean_all raw : Forall clean_url (collect_urls raw).
Proof.
  unfold collect_urls. apply Forall_forall. intros u Hu.
  apply list_elem_of_In, in_map_iff in Hu as (p & <- & Hp).
  apply filter_In in Hp as [Hp Ht].
  split; [now apply truthy_true|]. split.
  - destruct (PyStr.contains "," (PyStr.strip p)) eqn:E; [|reflexivity].
    apply contains_strip in E.
    now rewrite (split_pieces_free _ _ _ Hp) in E.
  - split; intros c; [apply strip_head|apply strip_last].
Qed.

Lemma split_free sep p : PyStr.contains sep p = false → PyStr.split sep p = [p].
Proof.
  induction p as [|c p IH]; [reflexivity|].
  cbn [PyStr.contains PyStr.split]. intros [Hc Hp]%orb_false_elim.
  now rewrite Hc, (IH Hp).
Qed.

Lemma split_app_free sep p t :
  PyStr.contains sep p = false →
  PyStr.split sep (p +:+ String sep t) = p :: PyStr.split sep t.
Proof.
  induction p as [|c p IH].
  - intros _. rewrite app_empty_l. cbn [PyStr.split].
    now rewrite Ascii.eqb_refl.
  - cbn [PyStr.contains]. intros [Hc Hp]%orb_false_elim.
    rewrite app_cons. cbn [PyStr.split]. now rewrite Hc, (IH Hp).
Qed.

Lemma split_join sep ps :
  ps ≠ [] →
  Forall (λ p, PyStr.contains sep p = false) ps →
  PyStr.split sep (PyStr.join sep ps) = ps.
Proof.
  induction ps as [|p ps IH]; [congruence|]. intros _ Hall.
  apply Forall_cons in Hall as [Hp Hps].
  destruct ps as [|q qs].
  - cbn [PyStr.join]. now apply split_free.
  - change (PyStr.join sep (p :: q :: qs))
      with (p +:+ String sep (PyStr.join sep (q :: qs))).
    rewrite (split_app_free _ _ _ Hp), IH; [reflexivity|discriminate|exact Hps].
Qed.

Lemma collect_clean us :
  Forall clean_url us →
  List.map PyStr.strip
    (List.filter (λ url, PyStr.truthy (PyStr.strip url)) us) = us.
Proof.
  induction 1 as [|u us (Hne & _ & Hh & Hl) _ IH]; [reflexivity|].
  cbn [List.filter]. rewrite (strip_fixed u Hh Hl).
  rewrite (proj2 (truthy_true u) Hne). cbn [List.map].
  now rewrite (strip_fixed u Hh Hl), IH.
Qed.

(** X1.  Every URL the Input Collector returns is the trimmed form of one
    comma-delimited piece of the line; it is not empty, holds no comma and
    neither starts nor ends with whitespace. *)
Theorem X1_collected_urls_clean (raw : string) :
  Forall (λ u, clean_url u
               ∧ ∃ p, In p (PyStr.split "," raw) ∧ u = PyStr.strip p)
         (collect_urls raw).
Proof.
  apply Forall_forall. intros u Hu. split.
  - pose proof (collect_urls_clean_all raw) as H.
    rewrite Forall_forall in H. now apply H.
  - unfold collect_urls in Hu.
    apply list_elem_of_In, in_map_iff in Hu as (p & <- & Hp).
    apply filter_In in Hp as [Hp _]. eauto.
Qed.

(** X2.  Round trip: joining the collected URLs with commas and collecting
    again gives the same list, so the Input Collector is idempotent on its
    own output; more generally it returns any list of clean URLs unchanged
    from their comma-joined line. *)
Theorem X2_collect_urls_round_trip (raw : string) :
  collect_urls (PyStr.join "," (collect_urls raw)) = collect_urls raw
  ∧ ∀ us, Forall clean_url us → collect_urls (PyStr.join "," us) = us.
Proof.
  assert (Hgen : ∀ us, Forall clean_url us →
                       collect_urls (PyStr.join "," us) = us).
  { intros us Hus. destruct us as [|u us]; [reflexivity|].
    unfold collect_urls. rewrite split_join.
    - now apply collect_clean.
    - discriminate.
    - eapply Forall_impl; [exact Hus|]. now intros x (_ & Hx & _). }
  split; [|exact Hgen]. apply Hgen, collect_urls_clean_all.
Qed.

(** ** Safety Validator: acceptance and malformed lengths *)

Lemma validate_raises_value_error r e :
  validate_response_headers r = Raise e → ∃ msg, e = ValueError msg.
Proof.
  rewrite validate_unfold.
  destruct (negb _); [intros [= <-]; eexists; reflexivity|].
  destruct (headers_get r "Content-Length") as [v|]; [|discriminate].
  destruct (PyStr.truthy v); [|discriminate].
  destruct (PyInt.int v) as [n|e'] eqn:Hi.
  - destruct (size_limit <? n); [|discriminate].
    intros [= <-]. eexists. reflexivity.
  - intros [= <-]. apply int_raises in Hi.
    destruct Hi as [->|(count & _ & ->)]; eexists; reflexivity.
Qed.

(** X3.  The Safety Validator accepts a response exactly when its declared
    type, lower-cased, starts with [image/] and its Content-Length header is
    absent, empty, or an integer literal of at most 10 * 1024 * 1024 (a
    negative declared length is accepted).  Whatever it rejects, it rejects
    with a [ValueError]. *)
Theorem X3_validator_accepts (r : Response) :
  (validate_response_headers r = Ok tt
   ↔ PyStr.startswith (declared_content_type r) "image/" = true
     ∧ ∀ v, headers_get r "Content-Length" = Some v →
            v = "" ∨ ∃ n, PyInt.int v = Ok n ∧ n ≤ 10 * 1024 * 1024)
  ∧ ∀ e, validate_response_headers r = Raise e → ∃ msg, e = ValueError msg.
Proof.
  split; [|apply validate_raises_value_error].
  rewrite validate_unfold.
  destruct (PyStr.startswith (declared_content_type r) "image/");
    cbn [negb]; [|split; [discriminate|intros [[=] _]]].
  destruct (headers_get r "Content-Length") as [v|].
  - destruct (PyStr.truthy v) eqn:Hv.
    + apply truthy_true in Hv.
      destruct (PyInt.int v) as [n|e] eqn:Hi.
      * destruct (size_limit <? n) eqn:Hn.
        -- apply Z.ltb_lt in Hn. split; [discriminate|].
           intros [_ H]. destruct (H v eq_refl) as [->|(n' & Hi' & Hle)];
             [congruence|].
           rewrite Hi in Hi'. injection Hi' as <-. unfold size_limit in Hn. lia.
        -- apply Z.ltb_ge in Hn. split; [|reflexivity].
           intros _. split; [reflexivity|]. intros v' [= <-].
           right. exists n. split; [exact Hi|exact Hn].
      * split; [discriminate|].
        intros [_ H]. destruct (H v eq_refl) as [->|(n' & Hi' & _)];
          [congruence|]. rewrite Hi in Hi'. discriminate Hi'.
    + split; [|reflexivity]. intros _. split; [reflexivity|].
      intros v' [= <-]. left. destruct v; [reflexivity|discriminate Hv].
  - split; [|reflexivity]. intros _. split; [reflexivity|]. intros v [=].
Qed.

(** X4.  A response of image type whose Content-Length is not empty and
    which [int] rejects fails validation with the [ValueError] of [int]
    itself.  Its message is the invalid-literal text followed by at most
    200 characters of [repr] of the header value, or, for a value of more
    than 4300 digits, the digit-limit text.  [download_image] reports the
    URL with the skip line carrying that message and the disk stays as it
    was. *)
Theorem X4_malformed_content_length (r : Response) (v : string) (e : exn) :
  PyStr.startswith (declared_content_type r) "image/" = true →
  headers_get r "Content-Length" = Some v →
  v ≠ "" →
  PyInt.int v = Raise e →
  ∃ msg,
    e = ValueError msg
    ∧ (msg = "invalid literal for int() with base 10: "
             +:+ PyStr.take 200 (PyStr.repr v)
       ∨ ∃ count,
           (4300 < count)%nat
           ∧ msg = "Exceeds the limit (4300 digits) for integer string conversion: value has "
                   +:+ PyInt.decimal count
                   +:+ " digits; use sys.set_int_max_str_digits() to increase the limit")
    ∧ validate_response_headers r = Raise e
    ∧ ∀ urlparse http url w,
        http (requests_made (trace w)) url = Responded r →
        raise_for_status r = Ok tt →
        download_image urlparse http url w
        = (log [EvGet url; EvPrint (SkippingUrl url msg)] w, Ok tt).
Proof.
  intros Ht Hv Hne Hi.
  assert (Hval : validate_response_headers r = Raise e).
  { rewrite validate_unfold, Ht, Hv. cbn [negb].
    now rewrite (proj2 (truthy_true v) Hne), Hi. }
  assert (Hrun : ∀ msg, e = ValueError msg →
            ∀ urlparse http url w,
              http (requests_made (trace w)) url = Responded r →
              raise_for_status r = Ok tt →
              download_image urlparse http url w
              = (log [EvGet url; EvPrint (SkippingUrl url msg)] w, Ok tt)).
  { intros msg -> urlparse http url w Hh Hs.
    now rewrite (download_rejected _ _ _ _ _ _ Hh Hs Hval). }
  destruct (int_raises _ _ Hi) as [He|(count & Hc & He)].
  - eexists. split; [exact He|]. split; [left; reflexivity|].
    split; [exact Hval|]. now apply Hrun.
  - eexists. split; [exact He|]. split; [right; exists count; auto|].
    split; [exact Hval|]. now apply Hrun.
Qed.

Lemma X4_witness :
  validate_response_headers
    (response_of 200 [("Content-Type", "image/gif");
                      ("Content-Length", PyStr.of_codes [53; 31]%N)] [])
  = Raise (ValueError "invalid literal for int() with base 10: '5\x1f'").
Proof.
  destruct (X4_malformed_content_length
              (response_of 200 [("Content-Type", "image/gif");
                                ("Content-Length", PyStr.of_codes [53; 31]%N)] [])
              (PyStr.of_codes [53; 31]%N)
              (ValueError "invalid literal for int() with base 10: '5\x1f'"))
    as (msg & _ & _ & Hval & _);
    [vm_compute; reflexivity..|discriminate|vm_compute; reflexivity|exact Hval].
Defined.

(** ** The status check *)

(** X5.  [raise_for_status] lets through every status outside 400..599.
    For a status inside that range [download_image] prints the connection
    error line with the HTTP error text, whatever the headers and the body
    are and whether or not the destination exists: the validator and the
    Persister are not reached and the disk stays as it was. *)
Theorem X5_http_error_status (r : Response) :
  (raise_for_status r = Ok tt ↔ ¬ (400 ≤ status_code r < 600))
  ∧ (400 ≤ status_code r < 600 →
     ∀ urlparse http url w,
       http (requests_made (trace w)) url = Responded r →
       download_image urlparse http url w
       = (log [EvGet url; EvPrint (ConnectionErrorFor url (http_error r))] w,
          Ok tt)).
Proof.
  unfold raise_for_status.
  destruct (400 <=? status_code r) eqn:Hlo;
    [apply Z.leb_le in Hlo|apply Z.leb_gt in Hlo];
    (destruct (status_code r <? 600) eqn:Hhi;
       [apply Z.ltb_lt in Hhi|apply Z.ltb_ge in Hhi]); cbn [andb].
  1: { split; [split; [discriminate|intros H; elim H; lia]|].
       intros _ urlparse http url w Hh.
       rewrite download_image_admission. unfold admission, raise_for_status.
       rewrite Hh. rewrite (proj2 (Z.leb_le _ _) Hlo), (proj2 (Z.ltb_lt _ _) Hhi).
       reflexivity. }
  all: split; [split; [intros _; lia|reflexivity]|intros; lia].
Qed.

Lemma X5_witness :
  download_image UrlLib.urlparse sample_http "http://example.com/missing.png"
    world_with_cat
  = (log [EvGet "http://example.com/missing.png";
          EvPrint (ConnectionErrorFor "http://example.com/missing.png"
                     "404 Client Error: Not Found")] world_with_cat, Ok tt).
Proof.
  refine (proj2 (X5_http_error_status not_found) _ UrlLib.urlparse sample_http
            "http://example.com/missing.png" world_with_cat _).
  - cbn. lia.
  - vm_compute. reflexivity.
Defined.

(** ** Destination Resolver: the shape of every filename *)

Lemma md5_hexdigest_free data :
  PyStr.contains "/" (Hashlib.md5_hexdigest data) = false.
Proof. unfold Hashlib.md5_hexdigest. apply all_hex_free, hex_all_hex. Qed.

Lemma get_filename_flat urlparse url f :
  get_filename_from_url urlparse url = Ok f →
  f ≠ "" ∧ PyStr.contains "/" f = false.
Proof.
  unfold get_filename_from_url.
  destruct (urlparse url) as [parsed|e]; [|discriminate].
  cbn [mbind result_bind].
  destruct (PyStr.truthy (OsPath.basename (path parsed))) eqn:Ht; cbn [negb].
  - intros [= <-]. split; [now apply truthy_true|apply drop_after_last_free].
  - intros H. injection H as <-. split.
    + intros H. apply (f_equal String.length) in H.
      rewrite length_app, md5_hexdigest_length in H.
      cbn [String.length] in H. lia.
    + rewrite contains_app, md5_hexdigest_free. reflexivity.
Qed.


(** ** The Persister's write path in full *)

Lemma f_write_eq p chunk w :
  f_write p chunk w
  = ({| fs := {| dirs := dirs (fs w);
                 files := <[p := default [] (files (fs w) !! p) ++ chunk]>
                            (files (fs w)) |};
        trace := trace w ++ [EvWrite p chunk] |}, Ok tt).
Proof. reflexivity. Qed.

Lemma write_chunks_content p chunks w old :
  files (fs w) !! p = Some old →
  files (fs (write_chunks p chunks w).1) !! p = Some (old ++ concat chunks).
Proof.
  revert w old. induction chunks as [|chunk rest IH]; intros w old Hold.
  - cbn. now rewrite app_nil_r.
  - cbn [write_chunks]. rewrite bind_run.
    destruct chunk as [|b chunk]; cbn [bytes_truthy].
    + change ((mret tt : IO unit) w) with (w, @Ok unit tt). cbv iota beta.
      now apply IH.
    + rewrite f_write_eq. cbv iota beta.
      rewrite (IH _ (old ++ b :: chunk)).
      * cbn [concat]. now rewrite <- app_assoc.
      * cbn [fs files]. now rewrite lookup_insert_eq, Hold.
Qed.

Lemma open_wb_ok p w :
  open_error (fs w) p = None →
  open_wb p w
  = ({| fs := {| dirs := dirs (fs w); files := <[p := []]> (files (fs w)) |};
        trace := trace w ++ [EvOpen p] |}, Ok tt).
Proof. intros H. unfold open_wb. io_red. now rewrite H. Qed.

Lemma open_wb_refused p w e :
  open_error (fs w) p = Some e →
  open_wb p w = (log [EvOpen p] w, Raise e).
Proof. intros H. unfold open_wb. io_red. now rewrite H. Qed.

Lemma not_exists_not_dir f p : path_exists f p = false → is_dir f p = false.
Proof. unfold path_exists. now intros [H _]%orb_false_elim. Qed.

Lemma persist_stores response filename p w :
  path_exists (fs w) p = false →
  open_error (fs w) p = None →
  ∃ w',
    persist response filename p w
    = (w', match content_error response with
           | Some e => Raise e
           | None => Ok tt
           end)
    ∧ trace w'
      = trace w ++ [EvOpen p] ++ written p (content response)
        ++ EvClose p
           :: match content_error response with
              | None => [EvPrint (SuccessfullyFetched filename);
                         EvPrint (ImageSavedTo p)]
              | Some _ => []
              end
    ∧ files (fs w') !! p = Some (concat (content response))
    ∧ frame p w w'.
Proof.
  intros Hex Hpar. unfold persist, file_already_exists, get_fs.
  rewrite !bind_run. cbn. rewrite Hex. rewrite bind_run.
  rewrite (open_wb_ok p w Hpar).
  set (w1 := {| fs := _; trace := _ |}).
  assert (Hf1 : frame p w w1).
  { split; [reflexivity|]. intros q Hq. cbn. now rewrite lookup_insert_ne. }
  assert (Hp1 : files (fs w1) !! p = Some []) by apply lookup_insert_eq.
  cbv iota beta. rewrite bind_run. unfold finally, stream_to. rewrite bind_run.
  pose proof (write_chunks_content p (content response) w1 [] Hp1) as Hc.
  destruct (write_chunks_run p (content response) w1) as (w2 & Hrun & Ht2 & Hf2).
  rewrite Hrun in Hc |- *. cbn [fst] in Hc. cbn [app] in Hc.
  destruct (content_error response) as [e|].
  - eexists. split; [reflexivity|]. cbn [fst snd fs trace f_close emit].
    split; [|split].
    + rewrite Ht2. subst w1. cbn [trace]. now rewrite <- !app_assoc.
    + exact Hc.
    + eapply frame_trans; [exact Hf1|]. destruct Hf2 as [Hd Hq]. split; auto.
  - eexists. split; [reflexivity|]. cbn [fst snd fs trace f_close emit].
    split; [|split].
    + rewrite Ht2. subst w1. cbn [trace]. now rewrite <- !app_assoc.
    + exact Hc.
    + eapply frame_trans; [exact Hf1|]. destruct Hf2 as [Hd Hq]. split; auto.
Qed.

Lemma app_inv_tail_string f s t : s +:+ f = t +:+ f → s = t.
Proof.
  revert t. induction s as [|c s IH]; intros [|d t] H.
  - reflexivity.
  - apply (f_equal String.length) in H. rewrite app_empty_l, app_cons in H.
    cbn [String.length] in H. rewrite length_app in H. lia.
  - apply (f_equal String.length) in H. rewrite app_empty_l, app_cons in H.
    cbn [String.length] in H. rewrite length_app in H. lia.
  - rewrite !app_cons in H. injection H as -> H. f_equal. now apply IH.
Qed.

Lemma dirname_under_save_dir f :
  PyStr.contains "/" f = false →
  OsPath.dirname ("Fetched_Images/" +:+ f) = SAVE_DIR.
Proof.
  intros Hf. unfold OsPath.dirname.
  assert (Hseg : final_segment ("Fetched_Images/" +:+ f) f).
  { exists "Fetched_Images/". split; [reflexivity|]. split; [now right|exact Hf]. }
  apply final_segment_basename in Hseg. unfold OsPath.basename in Hseg.
  pose proof (take_drop (PyStr.after_last OsPath.sep ("Fetched_Images/" +:+ f))
                ("Fetched_Images/" +:+ f)) as Htd.
  rewrite <- Hseg in Htd. apply app_inv_tail_string in Htd. rewrite Htd.
  reflexivity.
Qed.

Lemma basename_under_save_dir f :
  PyStr.contains "/" f = false →
  OsPath.basename ("Fetched_Images/" +:+ f) = f.
Proof.
  intros Hf. symmetry. apply final_segment_basename.
  exists "Fetched_Images/". split; [reflexivity|]. split; [now right|exact Hf].
Qed.

(** What [open] answers for a destination below the save directory that
    nothing occupies. *)
Lemma open_error_destination f w :
  PyStr.contains "/" f = false →
  path_exists (fs w) ("Fetched_Images/" +:+ f) = false →
  open_error (fs w) ("Fetched_Images/" +:+ f)
  = if PyStr.contains "000" f then Some (ValueError "embedded null byte")
    else if is_dir (fs w) SAVE_DIR
    then if (NAME_MAX <? length (Hashlib.encode f))%nat
         then Some (os_error "36" "File name too long" ("Fetched_Images/" +:+ f))
         else None
    else Some (if bool_decide (is_Some (files (fs w) !! SAVE_DIR))
               then os_error "20" "Not a directory" ("Fetched_Images/" +:+ f)
               else os_error "2" "No such file or directory"
                      ("Fetched_Images/" +:+ f)).
Proof.
  intros Hf Hex. unfold open_error, name_bytes.
  rewrite contains_app. change (PyStr.contains "000" "Fetched_Images/") with false.
  cbn [orb]. destruct (PyStr.contains "000" f); [reflexivity|].
  rewrite (not_exists_not_dir _ _ Hex).
  rewrite (dirname_under_save_dir f Hf), (basename_under_save_dir f Hf).
  rewrite (bool_decide_false (SAVE_DIR = "")) by discriminate. cbn [orb].
  destruct (is_dir (fs w) SAVE_DIR); reflexivity.
Qed.

(** ** Every outcome of one URL *)

Section Outcomes.

Variable urlparse : string → result ParseResult.
Variable http : nat → string → get_outcome.

(** The run of [download_image], case by case: an exception before the
    Persister, a duplicate, a destination that [open] refuses, or a file
    written up to the end of the stream. *)
Lemma download_image_outcome url w :
  match admission urlparse http url w with
  | Raise e =>
      download_image urlparse http url w
      = (log [EvGet url; EvPrint (report_line url e)] w, Ok tt)
  | Ok (response, filename) =>
      let p := OsPath.join SAVE_DIR filename in
      if path_exists (fs w) p
      then download_image urlparse http url w
           = (log [EvGet url; EvPrint (SkippingDuplicate filename)] w, Ok tt)
      else match open_error (fs w) p with
           | None =>
               ∃ w',
                 download_image urlparse http url w = (w', Ok tt)
                 ∧ trace w' = trace w ++ stored_events url filename p response
                 ∧ files (fs w') !! p = Some (concat (content response))
                 ∧ frame p w w'
           | Some e =>
               download_image urlparse http url w
               = (log [EvGet url; EvOpen p; EvPrint (report_line url e)] w,
                  Ok tt)
           end
  end.
Proof.
  rewrite download_image_admission.
  destruct (admission urlparse http url w) as [[response filename]|e];
    [|reflexivity].
  cbv zeta. unfold try_except.
  destruct (path_exists (fs w) (OsPath.join SAVE_DIR filename)) eqn:Hex.
  - rewrite persist_duplicate by exact Hex. now rewrite log_log.
  - destruct (open_error (fs w) (OsPath.join SAVE_DIR filename)) as [e|] eqn:Hpar.
    + unfold persist, file_already_exists, get_fs.
      rewrite !bind_run. cbn. rewrite Hex. rewrite bind_run.
      rewrite (open_wb_refused _ (log [EvGet url] w) e Hpar).
      rewrite report_run, !log_log. reflexivity.
    + destruct (persist_stores response filename _ (log [EvGet url] w) Hex Hpar)
        as (w' & -> & Ht & Hc & Hfr).
      unfold stored_events.
      destruct (content_error response) as [e|].
      * rewrite report_run. eexists. split; [reflexivity|].
        split; [|split; [exact Hc|exact Hfr]].
        cbn [log trace fs]. rewrite Ht. cbn [log trace].
        rewrite <- !app_assoc. cbn [app]. reflexivity.
      * eexists. split; [reflexivity|].
        split; [|split; [exact Hc|exact Hfr]].
        rewrite Ht. cbn [log trace]. rewrite <- !app_assoc. reflexivity.
Qed.

End Outcomes.

Lemma admission_ok urlparse http url w response filename :
  http (requests_made (trace w)) url = Responded response →
  raise_for_status response = Ok tt →
  validate_response_headers response = Ok tt →
  get_filename_from_url urlparse url = Ok filename →
  admission urlparse http url w = Ok (response, filename).
Proof.
  intros Hh Hs Hv Hf. unfold admission. rewrite Hh, Hs. cbn [mbind result_bind].
  rewrite Hv. cbn [mbind result_bind]. now rewrite Hf.
Qed.

Lemma download_stores urlparse http url w response filename :
  http (requests_made (trace w)) url = Responded response →
  raise_for_status response = Ok tt →
  validate_response_headers response = Ok tt →
  get_filename_from_url urlparse url = Ok filename →
  is_dir (fs w) SAVE_DIR = true →
  path_exists (fs w) ("Fetched_Images/" +:+ filename) = false →
  PyStr.contains "000" filename = false →
  (length (Hashlib.encode filename) ≤ 255)%nat →
  ∃ w',
    download_image urlparse http url w = (w', Ok tt)
    ∧ trace w'
      = trace w
        ++ stored_events url filename ("Fetched_Images/" +:+ filename) response
    ∧ files (fs w') !! ("Fetched_Images/" +:+ filename)
      = Some (concat (content response))
    ∧ frame ("Fetched_Images/" +:+ filename) w w'.
Proof.
  intros Hh Hs Hv Hf Hdir Hex Hnul Hlen.
  destruct (get_filename_flat _ _ _ Hf) as [_ Hfree].
  pose proof (download_image_outcome urlparse http url w) as Hout.
  rewrite (admission_ok _ _ _ _ _ _ Hh Hs Hv Hf) in Hout. cbv zeta in Hout.
  rewrite (join_save_dir filename Hfree) in Hout. rewrite Hex in Hout.
  rewrite (open_error_destination filename w Hfree Hex), Hnul, Hdir in Hout.
  unfold NAME_MAX in Hout.
  rewrite (proj2 (Nat.ltb_ge _ _) Hlen) in Hout. exact Hout.
Qed.

(** X7.  A complete download.  When the request returns a response with a
    successful status that passes validation, the save directory exists,
    nothing is at the destination, the file name holds no NUL and at most
    255 bytes, and the stream ends normally, the destination file holds
    exactly the concatenation of the received chunks (the declared
    Content-Length plays no part), [f.write] is called once per non-empty
    chunk, the file is closed, the two success lines are printed, and
    nothing else on disk changes. *)
Theorem X7_download_complete urlparse http (url : string) (w : World)
    (response : Response) (filename : string) :
  http (requests_made (trace w)) url = Responded response →
  raise_for_status response = Ok tt →
  validate_response_headers response = Ok tt →
  get_filename_from_url urlparse url = Ok filename →
  is_dir (fs w) SAVE_DIR = true →
  path_exists (fs w) ("Fetched_Images/" +:+ filename) = false →
  PyStr.contains "000" filename = false →
  (length (Hashlib.encode filename) ≤ 255)%nat →
  content_error response = None →
  ∃ w',
    download_image urlparse http url w = (w', Ok tt)
    ∧ files (fs w') !! ("Fetched_Images/" +:+ filename)
      = Some (concat (content response))
    ∧ trace w'
      = trace w
        ++ [EvGet url; EvOpen ("Fetched_Images/" +:+ filename)]
        ++ (EvWrite ("Fetched_Images/" +:+ filename)
              <$> List.filter bytes_truthy (content response))
        ++ [EvClose ("Fetched_Images/" +:+ filename);
            EvPrint (SuccessfullyFetched filename);
            EvPrint (ImageSavedTo ("Fetched_Images/" +:+ filename))]
    ∧ dirs (fs w') = dirs (fs w)
    ∧ ∀ q, q ≠ "Fetched_Images/" +:+ filename →
           files (fs w') !! q = files (fs w) !! q.
Proof.
  intros Hh Hs Hv Hf Hdir Hex Hnul Hlen Hend.
  destruct (download_stores _ _ _ _ _ _ Hh Hs Hv Hf Hdir Hex Hnul Hlen)
    as (w' & Hrun & Ht & Hc & Hd & Hq).
  exists w'. split; [exact Hrun|]. split; [exact Hc|].
  split; [|split; [exact Hd|exact Hq]].
  rewrite Ht. unfold stored_events, written. now rewrite Hend.
Qed.

Lemma X7_witness :
  ∃ w',
    download_image UrlLib.urlparse sample_http "http://example.com/cat.jpg"
      {| fs := {| dirs := {[SAVE_DIR]}; files := ∅ |}; trace := [] |}
    = (w', Ok tt)
    ∧ files (fs w') !! "Fetched_Images/cat.jpg"
      = Some (jpeg_chunk ++ jpeg_chunk).
Proof.
  destruct (X7_download_complete UrlLib.urlparse sample_http
              "http://example.com/cat.jpg"
              {| fs := {| dirs := {[SAVE_DIR]}; files := ∅ |}; trace := [] |}
              small_jpeg "cat.jpg")
    as (w' & Hrun & Hc & _);
    [vm_compute; reflexivity..|vm_compute; lia|vm_compute; reflexivity|].
  exists w'. split; [exact Hrun|exact Hc].
Defined.

(** X8.  A stream that breaks.  Under the same conditions, when
    [iter_content] raises after some chunks, the chunks received so far stay
    in the destination file, the file is closed, no success line is printed,
    and the exception is reported for the URL by the clause of its class:
    the partial file is left on disk. *)
Theorem X8_download_interrupted urlparse http (url : string) (w : World)
    (response : Response) (filename : string) (e : exn) :
  http (requests_made (trace w)) url = Responded response →
  raise_for_status response = Ok tt →
  validate_response_headers response = Ok tt →
  get_filename_from_url urlparse url = Ok filename →
  is_dir (fs w) SAVE_DIR = true →
  path_exists (fs w) ("Fetched_Images/" +:+ filename) = false →
  PyStr.contains "000" filename = false →
  (length (Hashlib.encode filename) ≤ 255)%nat →
  content_error response = Some e →
  ∃ w',
    download_image urlparse http url w = (w', Ok tt)
    ∧ files (fs w') !! ("Fetched_Images/" +:+ filename)
      = Some (concat (content response))
    ∧ trace w'
      = trace w
        ++ [EvGet url; EvOpen ("Fetched_Images/" +:+ filename)]
        ++ (EvWrite ("Fetched_Images/" +:+ filename)
              <$> List.filter bytes_truthy (content response))
        ++ [EvClose ("Fetched_Images/" +:+ filename);
            EvPrint (report_line url e)]
    ∧ path_exists (fs w') ("Fetched_Images/" +:+ filename) = true.
Proof.
  intros Hh Hs Hv Hf Hdir Hex Hnul Hlen Hend.
  destruct (download_stores _ _ _ _ _ _ Hh Hs Hv Hf Hdir Hex Hnul Hlen)
    as (w' & Hrun & Ht & Hc & _).
  exists w'. split; [exact Hrun|]. split; [exact Hc|]. split.
  - rewrite Ht. unfold stored_events, written. now rewrite Hend.
  - eapply exists_of_file, Hc.
Qed.

Lemma X8_witness :
  ∃ w',
    download_image UrlLib.urlparse
      (λ _ _, Responded
                {| status_code := 200; http_error := "";
                   headers := {["content-type" := "image/png"]};
                   content := [jpeg_chunk];
                   content_error := Some (RequestException "Connection broken") |})
      "http://example.com/a.png"
      {| fs := {| dirs := {[SAVE_DIR]}; files := ∅ |}; trace := [] |}
    = (w', Ok tt)
    ∧ files (fs w') !! "Fetched_Images/a.png" = Some jpeg_chunk
    ∧ path_exists (fs w') "Fetched_Images/a.png" = true.
Proof.
  edestruct (X8_download_interrupted UrlLib.urlparse
               (λ _ _, Responded
                         {| status_code := 200; http_error := "";
                            headers := {["content-type" := "image/png"]};
                            content := [jpeg_chunk];
                            content_error :=
                              Some (RequestException "Connection broken") |})
               "http://example.com/a.png"
               {| fs := {| dirs := {[SAVE_DIR]}; files := ∅ |}; trace := [] |})
    as (w' & Hrun & Hc & _ & Hex);
    [reflexivity|vm_compute; reflexivity..|vm_compute; lia|reflexivity|].
  exists w'. split; [exact Hrun|]. split; [exact Hc|exact Hex].
Defined.

(** X9.  What [open] refuses.  A URL that passed every check, whose
    destination nothing occupies, ends at [open] in three cases, and then
    nothing is created.  A NUL in the file name is a [ValueError], reported
    with the skip line.  Without the save directory the URL is reported
    with the unexpected-error line: [open] finds no such directory, or no
    directory at all when a regular file has its name.  In the save
    directory, a file name of more than 255 bytes is reported with the
    unexpected-error line as well. *)
Theorem X9_download_without_directory urlparse http (url : string) (w : World)
    (response : Response) (filename : string) :
  http (requests_made (trace w)) url = Responded response →
  raise_for_status response = Ok tt →
  validate_response_headers response = Ok tt →
  get_filename_from_url urlparse url = Ok filename →
  path_exists (fs w) ("Fetched_Images/" +:+ filename) = false →
  let p := "Fetched_Images/" +:+ filename in
  let refused (l : line) :=
    download_image urlparse http url w
    = (log [EvGet url; EvOpen p; EvPrint l] w, Ok tt) in
  (PyStr.contains "000" filename = true →
   refused (SkippingUrl url "embedded null byte"))
  ∧ (PyStr.contains "000" filename = false →
     is_dir (fs w) SAVE_DIR = false →
     refused (UnexpectedErrorFor url
                ((if bool_decide (is_Some (files (fs w) !! SAVE_DIR))
                  then "[Errno 20] Not a directory: "
                  else "[Errno 2] No such file or directory: ")
                 +:+ PyStr.repr p)))
  ∧ (PyStr.contains "000" filename = false →
     is_dir (fs w) SAVE_DIR = true →
     (255 < length (Hashlib.encode filename))%nat →
     refused (UnexpectedErrorFor url
                ("[Errno 36] File name too long: " +:+ PyStr.repr p))).
Proof.
  intros Hh Hs Hv Hf Hex p refused. subst p refused. cbv beta.
  destruct (get_filename_flat _ _ _ Hf) as [_ Hfree].
  pose proof (download_image_outcome urlparse http url w) as Hout.
  rewrite (admission_ok _ _ _ _ _ _ Hh Hs Hv Hf) in Hout. cbv zeta in Hout.
  rewrite (join_save_dir filename Hfree) in Hout. rewrite Hex in Hout.
  rewrite (open_error_destination filename w Hfree Hex) in Hout.
  split; [|split].
  - intros Hnul. rewrite Hnul in Hout. exact Hout.
  - intros Hnul Hdir. rewrite Hnul, Hdir in Hout.
    destruct (bool_decide (is_Some (files (fs w) !! SAVE_DIR))); exact Hout.
  - intros Hnul Hdir Hlen. rewrite Hnul, Hdir in Hout. unfold NAME_MAX in Hout.
    rewrite (proj2 (Nat.ltb_lt _ _) Hlen) in Hout. exact Hout.
Qed.

Lemma X9_witness :
  download_image UrlLib.urlparse sample_http "http://example.com/cat.jpg"
    empty_world
  = (log [EvGet "http://example.com/cat.jpg";
          EvOpen "Fetched_Images/cat.jpg";
          EvPrint (UnexpectedErrorFor "http://example.com/cat.jpg"
                     "[Errno 2] No such file or directory: 'Fetched_Images/cat.jpg'")]
         empty_world, Ok tt).
Proof.
  refine (proj1 (proj2
    (X9_download_without_directory UrlLib.urlparse sample_http
       "http://example.com/cat.jpg" empty_world small_jpeg "cat.jpg"
       _ _ _ _ _)) _ _);
    vm_compute; reflexivity.
Defined.

(** ** What a run never touches *)

Lemma written_paths p chunks :
  Forall (λ e, event_path e = Some p) (written p chunks).
Proof.
  unfold written. induction (List.filter bytes_truthy chunks) as [|c l IH];
    constructor; [reflexivity|exact IH].
Qed.

Lemma stored_events_paths url filename p response :
  Forall (λ e, ∀ q, event_path e = Some q → q = p)
         (stored_events url filename p response).
Proof.
  unfold stored_events. rewrite !Forall_app. split; [|split].
  - repeat constructor; cbn; congruence.
  - eapply Forall_impl; [apply written_paths|]. cbn. intros e He q. congruence.
  - destruct (content_error response); repeat constructor; cbn; congruence.
Qed.

Lemma destination_under_save_dir urlparse url filename :
  get_filename_from_url urlparse url = Ok filename →
  under_save_dir (OsPath.join SAVE_DIR filename).
Proof.
  intros Hf. destruct (get_filename_flat _ _ _ Hf) as [Hne Hfree].
  rewrite (join_save_dir filename Hfree). now exists filename.
Qed.

Lemma download_image_footprint urlparse http url w :
  ∃ delta,
    trace (download_image urlparse http url w).1 = trace w ++ delta
    ∧ Forall (λ e, ∀ p, event_path e = Some p → under_save_dir p) delta
    ∧ dirs (fs (download_image urlparse http url w).1) = dirs (fs w)
    ∧ ∀ q, ¬ under_save_dir q →
           files (fs (download_image urlparse http url w).1) !! q
           = files (fs w) !! q.
Proof.
  pose proof (download_image_outcome urlparse http url w) as Hout.
  destruct (admission urlparse http url w) as [[response filename]|e] eqn:Ha.
  - apply admission_inv in Ha as (_ & _ & _ & Hf).
    pose proof (destination_under_save_dir _ _ _ Hf) as Hunder.
    cbv zeta in Hout.
    destruct (path_exists (fs w) (OsPath.join SAVE_DIR filename)).
    + rewrite Hout. eexists. split; [reflexivity|].
      split; [repeat constructor; cbn; congruence|]. auto.
    + destruct (open_error (fs w) (OsPath.join SAVE_DIR filename)).
      * rewrite Hout. eexists. split; [reflexivity|]. split; [|auto].
        apply Forall_cons. split; [cbn; congruence|].
        apply Forall_cons. split; [intros p [= <-]; exact Hunder|].
        apply Forall_cons. split; [cbn; congruence|constructor].
      * destruct Hout as (w' & -> & Ht & _ & Hd & Hq). cbn [fst].
        eexists. split; [exact Ht|]. split; [|split; [exact Hd|]].
        -- eapply Forall_impl; [apply stored_events_paths|].
           cbn. intros e He p Hp. now rewrite (He p Hp).
        -- intros q Hq'. apply Hq. intros ->. now apply Hq'.
  - rewrite Hout. eexists. split; [reflexivity|].
    split; [repeat constructor; cbn; congruence|]. auto.
Qed.

(** X10.  Whatever the URL, the network and the parser do, one run of
    [download_image] opens, writes and closes files only directly below the
    save directory ([Fetched_Images/<name>], the name without a slash); it
    neither creates nor removes a directory, and every file elsewhere keeps
    its content or its absence. *)
Theorem X10_writes_stay_below_save_dir urlparse http (url : string)
    (w : World) :
  ∃ delta,
    trace (download_image urlparse http url w).1 = trace w ++ delta
    ∧ Forall (λ e, ∀ p, event_path e = Some p → under_save_dir p) delta
    ∧ dirs (fs (download_image urlparse http url w).1) = dirs (fs w)
    ∧ ∀ q, ¬ under_save_dir q →
           files (fs (download_image urlparse http url w).1) !! q
           = files (fs w) !! q.
Proof. apply download_image_footprint. Qed.

(** ** A URL is written at most once *)

Lemma download_existing_destination urlparse http url w filename :
  get_filename_from_url urlparse url = Ok filename →
  path_exists (fs w) (OsPath.join SAVE_DIR filename) = true →
  fs (download_image urlparse http url w).1 = fs w.
Proof.
  intros Hf Hex.
  pose proof (download_image_outcome urlparse http url w) as Hout.
  destruct (admission urlparse http url w) as [[response filename']|e] eqn:Ha.
  - apply admission_inv in Ha as (_ & _ & _ & Hf').
    rewrite Hf in Hf'. injection Hf' as <-.
    cbv zeta in Hout. rewrite Hex in Hout. now rewrite Hout.
  - now rewrite Hout.
Qed.

(** X11.  If a run of [download_image] changed the disk, then a later run
    for the same URL, or for any URL that resolves to the same filename,
    changes nothing, whatever the network answers: the file the first run
    created (complete or partial) makes every later attempt a duplicate. *)
Theorem X11_written_at_most_once urlparse http http' (url url' : string)
    (w : World) :
  get_filename_from_url urlparse url' = get_filename_from_url urlparse url →
  fs (download_image urlparse http url w).1 ≠ fs w →
  fs (download_image urlparse http' url'
        (download_image urlparse http url w).1).1
  = fs (download_image urlparse http url w).1.
Proof.
  intros Hsame Hchanged.
  pose proof (download_image_outcome urlparse http url w) as Hout.
  destruct (admission urlparse http url w) as [[response filename]|e] eqn:Ha.
  - apply admission_inv in Ha as (_ & _ & _ & Hf). cbv zeta in Hout.
    destruct (path_exists (fs w) (OsPath.join SAVE_DIR filename));
      [rewrite Hout in Hchanged; now elim Hchanged|].
    destruct (open_error (fs w) (OsPath.join SAVE_DIR filename));
      [rewrite Hout in Hchanged; now elim Hchanged|].
    destruct Hout as (w' & Hrun & _ & Hc & _). rewrite Hrun. cbn [fst].
    rewrite <- Hsame in Hf.
    apply (download_existing_destination _ _ _ _ filename Hf).
    eapply exists_of_file, Hc.
  - rewrite Hout in Hchanged. now elim Hchanged.
Qed.

Lemma X11_witness :
  let w0 := {| fs := {| dirs := {[SAVE_DIR]}; files := ∅ |}; trace := [] |} in
  let w1 := (download_image UrlLib.urlparse sample_http
               "http://example.com/cat.jpg" w0).1 in
  fs w1 ≠ fs w0
  ∧ fs (download_image UrlLib.urlparse (λ _ _, Responded small_png)
          "http://other.example/pets/cat.jpg?v=2" w1).1 = fs w1.
Proof.
  assert (H : fs (download_image UrlLib.urlparse sample_http
                    "http://example.com/cat.jpg"
                    {| fs := {| dirs := {[SAVE_DIR]}; files := ∅ |};
                       trace := [] |}).1
              ≠ {| dirs := {[SAVE_DIR]}; files := ∅ |}).
  { intros Heq. apply (f_equal (λ f, files f !! "Fetched_Images/cat.jpg")) in Heq.
    vm_compute in Heq. discriminate Heq. }
  split; [exact H|].
  refine (X11_written_at_most_once UrlLib.urlparse sample_http
            (λ _ _, Responded small_png)
            "http://example.com/cat.jpg"
            "http://other.example/pets/cat.jpg?v=2" _ _ H).
  vm_compute. reflexivity.
Defined.

(** ** Every URL is reported *)

Lemma printed_app t1 t2 : printed (t1 ++ t2) = printed t1 ++ printed t2.
Proof. unfold printed. apply omap_app. Qed.

Lemma printed_written p chunks : printed (written p chunks) = [].
Proof.
  unfold written. induction (List.filter bytes_truthy chunks); [reflexivity|].
  exact IHl.
Qed.

(** X12.  Each run of [download_image] prints exactly one line, or exactly
    the two success lines: the line of the exception that stopped it, built
    by the clause of its class and naming the URL; the duplicate line with
    the resolved filename; or the fetched line followed by the saved-to
    line.  No URL is processed silently. *)
Theorem X12_one_report_per_url urlparse http (url : string) (w : World) :
  ∃ delta,
    trace (download_image urlparse http url w).1 = trace w ++ delta
    ∧ ((∃ e, printed delta = [report_line url e])
       ∨ ∃ filename,
           get_filename_from_url urlparse url = Ok filename
           ∧ (printed delta = [SkippingDuplicate filename]
              ∨ printed delta
                = [SuccessfullyFetched filename;
                   ImageSavedTo (OsPath.join SAVE_DIR filename)])).
Proof.
  pose proof (download_image_outcome urlparse http url w) as Hout.
  destruct (admission urlparse http url w) as [[response filename]|e] eqn:Ha.
  - apply admission_inv in Ha as (_ & _ & _ & Hf). cbv zeta in Hout.
    destruct (path_exists (fs w) (OsPath.join SAVE_DIR filename)).
    + rewrite Hout. eexists. split; [reflexivity|]. right.
      exists filename. split; [exact Hf|]. now left.
    + destruct (open_error (fs w) (OsPath.join SAVE_DIR filename)) as [e|].
      * rewrite Hout. eexists. split; [reflexivity|]. left.
        exists e. reflexivity.
      * destruct Hout as (w' & -> & Ht & _). cbn [fst].
        eexists. split; [exact Ht|]. unfold stored_events.
        rewrite !printed_app, printed_written.
        destruct (content_error response) as [e|].
        -- left. exists e. reflexivity.
        -- right. exists filename. split; [exact Hf|]. now right.
  - rewrite Hout. eexists. split; [reflexivity|]. left. exists e. reflexivity.
Qed.

(** ** The save directory *)

Lemma create_save_directory_cases w :
  (is_dir (fs w) SAVE_DIR = false ∧ path_exists (fs w) SAVE_DIR = true
   ∧ ∃ msg, create_save_directory w
            = (log [EvMakedirs SAVE_DIR] w, Raise (OtherException msg)))
  ∨ ((is_dir (fs w) SAVE_DIR = true ∨ path_exists (fs w) SAVE_DIR = false)
     ∧ ∃ w', create_save_directory w = (w', Ok tt)
             ∧ trace w' = trace w ++ [EvMakedirs SAVE_DIR]
             ∧ files (fs w') = files (fs w)
             ∧ is_dir (fs w') SAVE_DIR = true
             ∧ (dirs (fs w') = dirs (fs w)
                ∨ dirs (fs w') = {[SAVE_DIR]} ∪ dirs (fs w))).
Proof.
  unfold create_save_directory, makedirs_exist_ok. io_red.
  destruct (is_dir (fs w) SAVE_DIR) eqn:Hd.
  - right. split; [now left|]. eexists. split; [reflexivity|].
    split; [reflexivity|]. split; [reflexivity|]. split; [exact Hd|now left].
  - destruct (path_exists (fs w) SAVE_DIR) eqn:Hex.
    + left. split; [reflexivity|]. split; [reflexivity|].
      eexists. reflexivity.
    + right. split; [now right|]. eexists. split; [reflexivity|].
      split; [reflexivity|]. split; [reflexivity|]. split; [|now right].
      unfold is_dir. cbn [fs dirs].
      rewrite bool_decide_true by set_solver. reflexivity.
Qed.

(** ** The whole run and the disk *)

Lemma for_each_footprint urlparse http urls w :
  ∃ w' loop,
    for_each urls (download_image urlparse http) w = (w', Ok tt)
    ∧ trace w' = trace w ++ loop
    ∧ requested loop = urls
    ∧ dirs (fs w') = dirs (fs w)
    ∧ (∀ q, ¬ under_save_dir q → files (fs w') !! q = files (fs w) !! q)
    ∧ ∀ p data, files (fs w) !! p = Some data →
                files (fs w') !! p = Some data.
Proof.
  revert w. induction urls as [|url urls IH]; intros w.
  - exists w, []. split; [reflexivity|]. rewrite app_nil_r. auto 10.
  - cbn [for_each]. rewrite bind_run.
    destruct (download_image_footprint urlparse http url w)
      as (delta & Ht & _ & Hd & Hq).
    destruct (download_image_returns urlparse http url w) as (w1 & Hrun & Hr).
    rewrite Hrun in Ht, Hd, Hq |- *. cbn [fst] in Ht, Hd, Hq.
    pose proof (download_image_keeps urlparse http url w) as Hk.
    rewrite Hrun in Hk. cbn [fst] in Hk.
    destruct (IH w1) as (w2 & loop & -> & Ht2 & Hr2 & Hd2 & Hq2 & Hk2).
    exists w2, (delta ++ loop). split; [reflexivity|].
    split; [rewrite Ht2, Ht; now rewrite app_assoc|].
    split.
    { rewrite Ht, requested_app in Hr. apply app_inv_head in Hr.
      rewrite requested_app, Hr, Hr2. reflexivity. }
    split; [congruence|]. split; [intros q Hq'; rewrite Hq2, Hq; auto|].
    intros p data Hp. apply Hk2, Hk, Hp.
Qed.

Lemma is_dir_dirs f f' p : dirs f' = dirs f → is_dir f' p = is_dir f p.
Proof. unfold is_dir. now intros ->. Qed.

(** The run of [main] on a non-empty URL list: it stops at [os.makedirs],
    or it goes through the loop and ends with the closing line. *)
Lemma main_outcome urlparse http urls_input w :
  collect_urls urls_input ≠ [] →
  (is_dir (fs w) SAVE_DIR = false ∧ path_exists (fs w) SAVE_DIR = true
   ∧ ∃ msg, main urlparse http urls_input w
            = (log [EvPrint Welcome; EvPrint Tagline; EvInput;
                    EvMakedirs SAVE_DIR] w, Raise (OtherException msg)))
  ∨ ((is_dir (fs w) SAVE_DIR = true ∨ path_exists (fs w) SAVE_DIR = false)
     ∧ ∃ w' loop,
         main urlparse http urls_input w = (w', Ok tt)
         ∧ trace w'
           = trace w
             ++ [EvPrint Welcome; EvPrint Tagline; EvInput;
                 EvMakedirs SAVE_DIR; EvPrint FetchingImages]
             ++ loop ++ [EvPrint Closing]
         ∧ requested loop = collect_urls urls_input
         ∧ is_dir (fs w') SAVE_DIR = true
         ∧ (dirs (fs w') = dirs (fs w)
            ∨ dirs (fs w') = {[SAVE_DIR]} ∪ dirs (fs w))
         ∧ (∀ q, ¬ under_save_dir q →
                 files (fs w') !! q = files (fs w) !! q)
         ∧ ∀ p data, files (fs w) !! p = Some data →
                     files (fs w') !! p = Some data).
Proof.
  intros Hne. unfold main. rewrite (bool_decide_true _ Hne). cbn [negb]. io_red.
  match goal with
  | |- context [create_save_directory ?x] =>
      destruct (create_save_directory_cases x)
        as [(Hd & Hex & msg & Hc)
           |(Hok & w1 & Hc & Ht1 & Hf1 & Hd1 & Hdirs1)];
      rewrite Hc; cbn [fs trace] in *
  end.
  - left. split; [exact Hd|]. split; [exact Hex|]. exists msg.
    unfold log. cbn [fs trace]. now rewrite <- !app_assoc.
  - right. split; [exact Hok|].
    match goal with
    | |- context [for_each ?l ?f ?x] =>
        destruct (for_each_footprint urlparse http l x)
          as (w2 & loop & Hf & Ht2 & Hr2 & Hd2 & Hq2 & Hk2);
        rewrite Hf
    end.
    cbn [fs trace] in *. eexists _, loop. split; [reflexivity|].
    cbn [fs trace]. split.
    { rewrite Ht2, Ht1, <- !app_assoc. reflexivity. }
    split; [exact Hr2|]. split.
    { rewrite (is_dir_dirs (fs w1) (fs w2) SAVE_DIR Hd2). exact Hd1. }
    split; [destruct Hdirs1; [left|right]; congruence|].
    split; [intros q Hq; rewrite Hq2, Hf1; auto|].
    intros p data Hp. apply Hk2. now rewrite Hf1.
Qed.

Lemma main_no_urls urlparse http urls_input w :
  collect_urls urls_input = [] →
  main urlparse http urls_input w
  = (log [EvPrint Welcome; EvPrint Tagline; EvInput; EvPrint NoValidUrls] w,
     Ok tt).
Proof.
  intros Hu. unfold main. rewrite Hu.
  rewrite (bool_decide_false (@nil string ≠ [])) by (intros H; now apply H).
  cbn [negb]. io_red. unfold log. cbn [fs trace].
  rewrite <- !app_assoc. reflexivity.
Qed.

(** X14.  Whatever the input line, the network and the disk, a run of
    [main] leaves every existing file with its content, changes no file
    outside [Fetched_Images/<name>], and adds no directory other than
    [Fetched_Images]; this holds also when the run stops with an
    exception. *)
Theorem X14_main_disk_footprint urlparse http (urls_input : string)
    (w : World) :
  (∀ p data, files (fs w) !! p = Some data →
             files (fs (main urlparse http urls_input w).1) !! p = Some data)
  ∧ (∀ q, ¬ under_save_dir q →
          files (fs (main urlparse http urls_input w).1) !! q
          = files (fs w) !! q)
  ∧ (dirs (fs (main urlparse http urls_input w).1) = dirs (fs w)
     ∨ dirs (fs (main urlparse http urls_input w).1)
       = {[SAVE_DIR]} ∪ dirs (fs w)).
Proof.
  destruct (collect_urls urls_input) as [|u us] eqn:Hu.
  - rewrite (main_no_urls _ _ _ _ Hu). cbn [fst log fs]. auto.
  - assert (Hne : collect_urls urls_input ≠ []) by (rewrite Hu; discriminate).
    destruct (main_outcome urlparse http urls_input w Hne)
      as [(_ & _ & msg & ->)
         |(_ & w' & loop & -> & _ & _ & _ & Hd & Hq & Hk)]; cbn [fst log fs].
    + auto.
    + auto.
Qed.

(** X15.  On a non-empty URL list, when [Fetched_Images] names something
    that is not a directory, [main] raises: the [FileExistsError] of
    [os.makedirs] is not caught, the run stops right after the prompt, no
    URL is requested and nothing on disk changes. *)
Theorem X15_main_stops_at_makedirs urlparse http (urls_input : string)
    (w : World) :
  collect_urls urls_input ≠ [] →
  is_dir (fs w) SAVE_DIR = false →
  path_exists (fs w) SAVE_DIR = true →
  main urlparse http urls_input w
  = (log [EvPrint Welcome; EvPrint Tagline; EvInput; EvMakedirs SAVE_DIR] w,
     Raise (OtherException "[Errno 17] File exists: 'Fetched_Images'"))
  ∧ requested (trace (main urlparse http urls_input w).1)
    = requested (trace w)
  ∧ fs (main urlparse http urls_input w).1 = fs w.
Proof.
  intros Hne Hd Hex.
  rewrite (main_directory_name_taken urlparse http urls_input w Hne Hd Hex).
  split; [reflexivity|]. split; [|reflexivity].
  cbn [fst log trace]. rewrite requested_app. cbn. now rewrite app_nil_r.
Qed.

Lemma X15_witness :
  main UrlLib.urlparse sample_http "http://example.com/cat.jpg"
    {| fs := {| dirs := ∅; files := {["Fetched_Images" := []]} |};
       trace := [] |}
  = ({| fs := {| dirs := ∅; files := {["Fetched_Images" := []]} |};
        trace := [EvPrint Welcome; EvPrint Tagline; EvInput;
                  EvMakedirs SAVE_DIR] |},
     Raise (OtherException "[Errno 17] File exists: 'Fetched_Images'")).
Proof.
  refine (proj1 (X15_main_stops_at_makedirs UrlLib.urlparse sample_http
                   "http://example.com/cat.jpg"
                   {| fs := {| dirs := ∅;
                               files := {["Fetched_Images" := []]} |};
                      trace := [] |} _ _ _)).
  - vm_compute. discriminate.
  - vm_compute. reflexivity.
  - vm_compute. reflexivity.
Defined.

(** ** Dot names *)

(** X17.  A URL whose last path segment is [.] or [..] never creates or
    changes anything: with the save directory in place the destination
    names a directory, so the run is a duplicate skip; without it [open]
    fails. *)
Theorem X17_dot_names_write_nothing urlparse http (url : string) (w : World)
    (filename : string) :
  get_filename_from_url urlparse url = Ok filename →
  filename = "." ∨ filename = ".." →
  fs (download_image urlparse http url w).1 = fs w.
Proof.
  intros Hf Hdot.
  pose proof (download_image_outcome urlparse http url w) as Hout.
  destruct (admission urlparse http url w) as [[response filename']|e] eqn:Ha;
    [|now rewrite Hout].
  apply admission_inv in Ha as (_ & _ & _ & Hf').
  rewrite Hf in Hf'. injection Hf' as <-. cbv zeta in Hout.
  destruct (path_exists (fs w) (OsPath.join SAVE_DIR filename)) eqn:Hex;
    [now rewrite Hout|].
  assert (Hfree : PyStr.contains "/" filename = false)
    by (destruct Hdot as [-> | ->]; reflexivity).
  assert (Hnul : PyStr.contains "000" filename = false)
    by (destruct Hdot as [-> | ->]; reflexivity).
  rewrite (join_save_dir filename Hfree) in Hex, Hout.
  assert (Hd : is_dir (fs w) SAVE_DIR = false).
  { pose proof (not_exists_not_dir _ _ Hex) as Hnd. unfold is_dir in Hnd |- *.
    apply orb_false_elim in Hnd as [_ Hnd].
    rewrite (basename_under_save_dir _ Hfree),
      (dirname_under_save_dir _ Hfree) in Hnd.
    rewrite bool_decide_true in Hnd by exact Hdot.
    cbn [andb] in Hnd. rewrite Hnd.
    rewrite (bool_decide_false (OsPath.basename SAVE_DIR = "." ∨ _))
      by (vm_compute; intros [H|H]; discriminate H).
    reflexivity. }
  rewrite (open_error_destination filename w Hfree Hex), Hnul, Hd in Hout.
  now rewrite Hout.
Qed.

Lemma X17_witness :
  fs (download_image UrlLib.urlparse (λ _ _, Responded small_png)
        "http://example.com/images/.." world_with_cat).1
  = fs world_with_cat.
Proof.
  apply (X17_dot_names_write_nothing UrlLib.urlparse
           (λ _ _, Responded small_png) "http://example.com/images/.."
           world_with_cat "..").
  - vm_compute. reflexivity.
  - now right.
Defined.
